(** * Medical CDSS front end: client-side state and request assembly

    A shallow embedding of the browser scripts of the repository (the
    analysis page, the login page, the records browser in its two
    revisions, the dashboard) and the properties of the record/analysis
    data flow.

    The scripts are event handlers over ambient browser state.  The state
    they touch is made explicit in the record [Browser]; every handler is a
    function [Browser -> Browser].  An [await fetch(...)] is modelled by
    logging the request in the state and taking the outcome of the network
    call as an argument of the handler. *)

From Stdlib Require Import Ascii.
From stdpp Require Import base option list strings gmap pretty.

(** ** JavaScript primitives used by the scripts *)

Module Js.

(** A value read from the DOM or from Web storage that is either a string
    or [null]/[undefined]. *)
Definition truthy (v : option string) : bool :=
  match v with
  | Some s => negb (String.eqb s "")
  | None => false
  end.

(** [a || b] on strings: [a] when it is truthy, else [b]. *)
Definition or (a : option string) (b : string) : string :=
  match a with
  | Some s => if String.eqb s "" then b else s
  | None => b
  end.

(** [`${v}`] for a string-or-null value such as [localStorage.getItem(k)]. *)
Definition template_null (v : option string) : string :=
  match v with Some s => s | None => "null" end.

(** [String(v)] for a possibly missing property of a JSON object. *)
Definition to_string (v : option string) : string :=
  match v with Some s => s | None => "undefined" end.

(** [Array.prototype.join]. *)
Fixpoint join (sep : string) (xs : list string) : string :=
  match xs with
  | [] => ""
  | [x] => x
  | x :: rest => x +:+ sep +:+ join sep rest
  end.

(** [String.prototype.startsWith]. *)
Fixpoint startsWith (s p : string) {struct p} : bool :=
  match p, s with
  | EmptyString, _ => true
  | String _ _, EmptyString => false
  | String a p', String b s' => Ascii.eqb a b && startsWith s' p'
  end.

(** [String.prototype.includes]: some suffix of [s] starts with [p]. *)
Fixpoint includes (s p : string) : bool :=
  startsWith s p ||
  match s with
  | EmptyString => false
  | String _ s' => includes s' p
  end.

(** [s.charAt(0)]: the first character as a string, or the empty string. *)
Definition charAt0 (s : string) : string :=
  match s with
  | EmptyString => ""
  | String c _ => String c ""
  end.

(** [String.prototype.split] with a non-empty separator.  The text is
    scanned from the left; [cur] is the piece read so far, and [skip]
    counts the characters of a separator just recognised that are still to
    be passed over. *)
Fixpoint split_from (sep s : string) (skip : nat) (cur : string) {struct s}
    : list string :=
  match s with
  | EmptyString => [cur]
  | String c s' =>
      match skip with
      | S skip' => split_from sep s' skip' cur
      | O =>
          if startsWith s sep
          then cur :: split_from sep s' (String.length sep - 1) ""
          else split_from sep s' 0 (cur +:+ String c "")
      end
  end.

Definition split (s sep : string) : list string := split_from sep s 0 "".

End Js.

(** ** Browser state *)

(** A notification created by [showAlert]: its text and its [alert-<type>]
    class. *)
Record Alert := mkAlert { alert_message : string; alert_type : string }.

(** A callback registered with [setTimeout] that assigns
    [window.location.href], as the redirection after a login does. *)
Record Timer := mkTimer { timer_delay : N; timer_href : string }.

(** An entry of [e.target.files] / [dataTransfer.files]. *)
Record File := mkFile { file_name : string; file_type : string }.

(** A value appended to a [FormData]. *)
Inductive FormValue :=
| FvFile (f : File)
| FvString (s : string).

(** The body of a request: none, [JSON.stringify] of a flat object, or a
    multipart [FormData], whose entries keep their order and duplicates. *)
Inductive Body :=
| NoBody
| JsonBody (fields : list (string * string))
| FormDataBody (entries : list (string * FormValue)).

(** One call of [fetch(url, {method, headers, body})]. *)
Record Request := mkRequest {
  req_url : string;
  req_method : string;
  req_headers : list (string * string);
  req_body : Body
}.

(** What an awaited [fetch] and the awaited read of its body give back:
    the promise of [fetch] rejects, or a response arrives with its [ok]
    flag; [None] as body means that reading it ([response.json()],
    [response.blob()]) rejects. *)
Inductive FetchOutcome (A : Type) :=
| FetchRejects
| Response (ok : bool) (body : option A).
Arguments FetchRejects {A}.
Arguments Response {A} ok body.

(** A [<tr>] of the records table: its [textContent], its
    [style.display], the class of the severity badge inside it (if any) and
    the record whose detail a click on it opens (if any). *)
Record Row := mkRow {
  row_text : string;
  row_display : string;
  row_badge : option string;
  row_opens : option N
}.

(** A number of a JSON answer, kept as the literal that spells it in the
    answer; how the runtime reads, rounds and prints it is not modelled. *)
Record JsonNumber := mkJsonNumber { json_literal : string }.

(** What [displayResults] interpolates into the results template: the
    disease, the severity and the colour of its text, the confidence (the
    width of the bar in percent and, through [toFixed(1)], the figure beside
    it), the affected regions and the recommendations, one list item each,
    and the analysis id as printed in the download button and in the
    address of the heat map. *)
Record ResultsView := mkResultsView {
  rv_disease : string;
  rv_severity : string;
  rv_severityColor : string;
  rv_confidence : JsonNumber;
  rv_affected_regions : list string;
  rv_recommendations : list string;
  rv_analysis_id : string
}.

(** A file saved through a temporary [<a download>] element. *)
Record Download := mkDownload { download_name : string; download_blob : string }.

Record Browser := mkBrowser {
  localStorage : gmap string string;   (* window.localStorage *)
  dataTheme : option string;           (* data-theme of document.documentElement *)
  href : string;                       (* window.location.href *)
  alerts : list Alert;                 (* notifications shown, oldest first *)
  timers : list Timer;                 (* pending setTimeout callbacks *)
  fetches : list Request;              (* calls of fetch, oldest first *)
  downloads : list Download;           (* files offered for saving *)
  recordsTable : option (list Row);    (* rows of #recordsTable, if it exists *)
  results : option (option ResultsView);
                                       (* content of #resultsContainer, if the page
                                          has #resultsSection and #resultsContainer *)
  selectedFile : option File           (* let selectedFile *)
}.

Definition set_localStorage (f : gmap string string → gmap string string) (b : Browser) : Browser :=
  mkBrowser (f (localStorage b)) (dataTheme b) (href b) (alerts b) (timers b)
            (fetches b) (downloads b) (recordsTable b) (results b) (selectedFile b).
Definition set_dataTheme (v : option string) (b : Browser) : Browser :=
  mkBrowser (localStorage b) v (href b) (alerts b) (timers b)
            (fetches b) (downloads b) (recordsTable b) (results b) (selectedFile b).
Definition set_href (v : string) (b : Browser) : Browser :=
  mkBrowser (localStorage b) (dataTheme b) v (alerts b) (timers b)
            (fetches b) (downloads b) (recordsTable b) (results b) (selectedFile b).
Definition set_alerts (f : list Alert → list Alert) (b : Browser) : Browser :=
  mkBrowser (localStorage b) (dataTheme b) (href b) (f (alerts b)) (timers b)
            (fetches b) (downloads b) (recordsTable b) (results b) (selectedFile b).
Definition set_timers (f : list Timer → list Timer) (b : Browser) : Browser :=
  mkBrowser (localStorage b) (dataTheme b) (href b) (alerts b) (f (timers b))
            (fetches b) (downloads b) (recordsTable b) (results b) (selectedFile b).
Definition set_fetches (f : list Request → list Request) (b : Browser) : Browser :=
  mkBrowser (localStorage b) (dataTheme b) (href b) (alerts b) (timers b)
            (f (fetches b)) (downloads b) (recordsTable b) (results b) (selectedFile b).
Definition set_downloads (f : list Download → list Download) (b : Browser) : Browser :=
  mkBrowser (localStorage b) (dataTheme b) (href b) (alerts b) (timers b)
            (fetches b) (f (downloads b)) (recordsTable b) (results b) (selectedFile b).
Definition set_recordsTable (v : option (list Row)) (b : Browser) : Browser :=
  mkBrowser (localStorage b) (dataTheme b) (href b) (alerts b) (timers b)
            (fetches b) (downloads b) v (results b) (selectedFile b).
Definition set_results (v : option (option ResultsView)) (b : Browser) : Browser :=
  mkBrowser (localStorage b) (dataTheme b) (href b) (alerts b) (timers b)
            (fetches b) (downloads b) (recordsTable b) v (selectedFile b).

(** How a call ends: it returns, leaving a state, or it throws before it
    changed the state. *)
Inductive Completion :=
| Returns (b : Browser)
| Throws.

(** [localStorage.getItem], [setItem] and [removeItem]. *)
Definition getItem (k : string) (b : Browser) : option string := localStorage b !! k.
Definition setItem (k v : string) : Browser → Browser := set_localStorage (insert k v).
Definition removeItem (k : string) : Browser → Browser := set_localStorage (delete k).

(** [fetch]: the call is logged; its outcome is an argument of the caller. *)
Definition fetch (r : Request) : Browser → Browser := set_fetches (λ l, l ++ [r]).

(** [setTimeout(() => { window.location.href = url }, delay)]. *)
Definition setTimeout_href (url : string) (delay : N) : Browser → Browser :=
  set_timers (λ l, l ++ [mkTimer delay url]).

(** The callback of a timer, run once its delay has elapsed. *)
Definition fire (t : Timer) : Browser → Browser := set_href (timer_href t).

Definition API_URL : string := "http://localhost:8000".

(** ** Code shared verbatim by the pages

    [initTheme], [toggleTheme], [handleLogout], [showAlert] and
    [downloadReport] have the same text in every script that defines
    them. *)

Module Common.

(** [showAlert(message, type)]: a notification with the message as its
    [textContent]; it removes itself after five seconds. *)
Definition showAlert (message type : string) : Browser → Browser :=
  set_alerts (λ l, l ++ [mkAlert message type]).

Definition initTheme (b : Browser) : Browser :=
  let theme := Js.or (getItem "theme" b) "light" in
  set_dataTheme (Some theme) b.

Definition toggleTheme (b : Browser) : Browser :=
  let current := dataTheme b in
  let next := if decide (current = Some "light") then "dark" else "light" in
  setItem "theme" next (set_dataTheme (Some next) b).

Definition handleLogout (b : Browser) : Browser :=
  set_href "index.html"
    (removeItem "doctorId" (removeItem "doctorName" (removeItem "token" b))).

Definition bearer (b : Browser) : string :=
  "Bearer " +:+ Js.template_null (getItem "token" b).

Definition downloadReport_request (analysisId : N) (b : Browser) : Request :=
  mkRequest (API_URL +:+ "/api/download/report/" +:+ pretty analysisId)
            "GET" [("Authorization", bearer b)] NoBody.

(** [window.downloadReport]; [net] is the outcome of its one [fetch] and
    of [response.blob()]. *)
Definition downloadReport (analysisId : N) (net : FetchOutcome string)
                          (b : Browser) : Browser :=
  let b := fetch (downloadReport_request analysisId b) b in
  match net with
  | Response true (Some blob) =>
      let a := mkDownload ("medical_report_" +:+ pretty analysisId +:+ ".pdf") blob in
      showAlert "Report downloaded successfully!" "success"
        (set_downloads (λ l, l ++ [a]) b)
  | Response true None => showAlert "Failed to download report" "error" b
  | Response false _ => showAlert "Failed to download report" "error" b
  | FetchRejects => showAlert "Failed to download report" "error" b
  end.

(** [checkAuth]: the stored token when there is one, else [false] (here
    [None]) after the page is sent to the entry page. *)
Definition checkAuth (b : Browser) : option string * Browser :=
  let token := getItem "token" b in
  if Js.truthy token then (token, b) else (None, set_href "index.html" b).

(** The texts of [.user-info h4] and [.user-avatar], for each of the two
    elements the page has. *)
Record UserInfo := mkUserInfo { userName : option string; userAvatar : option string }.

(** [updateUserInfo].  [String.prototype.toUpperCase] maps case as
    Unicode has it and belongs to the runtime; the code is parametric in
    it.  A character of the model stands for one code unit of the
    JavaScript string, so that [Js.charAt0] is [charAt(0)]. *)
Definition updateUserInfo (toUpperCase : string → string)
                          (b : Browser) (ui : UserInfo) : UserInfo :=
  let doctorName := getItem "doctorName" b in
  mkUserInfo
    ((λ _, Js.or doctorName "Doctor") <$> userName ui)
    ((λ old, if Js.truthy doctorName
             then toUpperCase (Js.charAt0 (default "" doctorName))
             else old) <$> userAvatar ui).

End Common.

(** ** The login page (frontend/js/analysis.js, second script, lines 382-617) *)

Module Auth.

(** The fields of [#loginForm]. *)
Record LoginForm := mkLoginForm { email : string; password : string }.

(** The JSON body of the answer to [POST /api/auth/login]; a property the
    object does not have is [None]. *)
Record LoginBody := mkLoginBody {
  access_token : option string;
  doctor_name : option string;
  doctor_id : option N;
  detail : option string
}.

Definition handleLogin_request (form : LoginForm) : Request :=
  mkRequest (API_URL +:+ "/api/auth/login") "POST"
            [("Content-Type", "application/json")]
            (JsonBody [("email", email form); ("password", password form)]).

(** [handleLogin]; [net] is the outcome of its [fetch] and of
    [response.json()].  Both rejections end in the [catch] branch.  The
    disabling of the submit button and its loader are not part of the
    state. *)
Definition handleLogin (form : LoginForm) (net : FetchOutcome LoginBody)
                       (b : Browser) : Browser :=
  let b := fetch (handleLogin_request form) b in
  match net with
  | Response ok (Some data) =>
      if ok then
        let b := setItem "token" (Js.to_string (access_token data)) b in
        let b := setItem "doctorName" (Js.to_string (doctor_name data)) b in
        let b := setItem "doctorId" (Js.to_string (pretty <$> doctor_id data)) b in
        let b := Common.showAlert "Login successful! Redirecting..." "success" b in
        setTimeout_href "dashboard.html" 1000 b
      else
        Common.showAlert
          (Js.or (detail data) "Login failed. Please check your credentials.")
          "error" b
  | Response _ None | FetchRejects =>
      Common.showAlert "Network error. Please check your connection." "error" b
  end.

(** The fields of [#registerForm]. *)
Record RegisterForm := mkRegisterForm {
  reg_name : string;
  reg_email : string;
  reg_password : string;
  reg_specialty : string;
  reg_license_number : string
}.

Definition handleRegister_request (form : RegisterForm) : Request :=
  mkRequest (API_URL +:+ "/api/auth/register") "POST"
            [("Content-Type", "application/json")]
            (JsonBody [("name", reg_name form); ("email", reg_email form);
                       ("password", reg_password form);
                       ("specialty", reg_specialty form);
                       ("license_number", reg_license_number form)]).

(** [handleRegister]; the length of the password is checked before
    anything is sent.  A character of the model stands for one code unit
    of the JavaScript string, so that [String.length] is its [length].
    [net] is the outcome of the [fetch] and of [response.json()]. *)
Definition handleRegister (form : RegisterForm) (net : FetchOutcome LoginBody)
                          (b : Browser) : Browser :=
  if (String.length (reg_password form) <? 8)%nat then
    Common.showAlert "Password must be at least 8 characters long" "error" b
  else
    let b := fetch (handleRegister_request form) b in
    match net with
    | Response ok (Some data) =>
        if ok then
          let b := setItem "token" (Js.to_string (access_token data)) b in
          let b := setItem "doctorName" (Js.to_string (doctor_name data)) b in
          let b := setItem "doctorId" (Js.to_string (pretty <$> doctor_id data)) b in
          let b := Common.showAlert "Registration successful! Redirecting..." "success" b in
          setTimeout_href "dashboard.html" 1000 b
        else
          Common.showAlert
            (Js.or (detail data) "Registration failed. Please try again.")
            "error" b
    | Response _ None | FetchRejects =>
        Common.showAlert "Network error. Please check your connection." "error" b
    end.

(** The [DOMContentLoaded] listener of the login page: the theme is
    applied, and a visitor who already has a token is sent on to the
    dashboard. *)
Definition DOMContentLoaded (b : Browser) : Browser :=
  let b := Common.initTheme b in
  if Js.truthy (getItem "token" b) then set_href "dashboard.html" b else b.

End Auth.

(** ** Upload form and result display (frontend/js/analysis.js, lines 1-381) *)

Module Analysis.

(** An [<input type="checkbox" name="symptoms">]. *)
Record Checkbox := mkCheckbox { cb_value : string; cb_checked : bool }.

(** The controls of [#patientForm]; every [.value] is a string. *)
Record PatientForm := mkPatientForm {
  patient_name : string;
  patient_age : string;
  patient_gender : string;
  symptoms : list Checkbox;
  medical_history : string;
  temperature : string;
  oxygen_saturation : string;
  heart_rate : string;
  respiratory_rate : string
}.

(** The JSON body of the answer to [POST /api/analyze]; a property the
    object does not have is [None]. *)
Record AnalyzeBody := mkAnalyzeBody {
  analysis_id : option N;
  disease : option string;
  severity : option string;
  confidence : option JsonNumber;
  affected_regions : option (list string);
  recommendations : option (list string);
  detail : option string
}.

(** [handleFileSelect]: a missing file or one whose MIME type is not an
    image leaves the selection as it is. *)
Definition handleFileSelect (file : option File) (b : Browser) : Browser :=
  match file with
  | None => b
  | Some f =>
      if Js.startsWith (file_type f) "image/" then
        mkBrowser (localStorage b) (dataTheme b) (href b) (alerts b) (timers b)
                  (fetches b) (downloads b) (recordsTable b) (results b) (Some f)
      else Common.showAlert "Please select an image file" "error" b
  end.

(** The values pushed by
    [form.querySelectorAll('input[name="symptoms"]:checked').forEach]. *)
Definition checked_symptoms (form : PatientForm) : list string :=
  cb_value <$> filter (λ cb, cb_checked cb = true) (symptoms form).

(** [if (field.value) formData.append(name, field.value)]. *)
Definition append_if_value (name value : string)
    (formData : list (string * FormValue)) : list (string * FormValue) :=
  if Js.truthy (Some value) then formData ++ [(name, FvString value)] else formData.

(** The [FormData] assembled by [handleAnalyze], entry after entry. *)
Definition prepare_formData (file : File) (form : PatientForm)
    : list (string * FormValue) :=
  let formData := [] in
  let formData := formData ++ [("image", FvFile file)] in
  let formData := formData ++ [("patient_name", FvString (patient_name form))] in
  let formData := formData ++ [("patient_age", FvString (patient_age form))] in
  let formData := formData ++ [("patient_gender", FvString (patient_gender form))] in
  let symptoms := checked_symptoms form in
  let formData :=
    formData ++ [("symptoms",
                  FvString (Js.or (Some (Js.join ", " symptoms)) "None reported"))] in
  let formData :=
    formData ++ [("medical_history",
                  FvString (Js.or (Some (medical_history form)) ""))] in
  let formData := append_if_value "temperature" (temperature form) formData in
  let formData := append_if_value "oxygen_saturation" (oxygen_saturation form) formData in
  let formData := append_if_value "heart_rate" (heart_rate form) formData in
  let formData := append_if_value "respiratory_rate" (respiratory_rate form) formData in
  formData.

Definition handleAnalyze_request (file : File) (form : PatientForm)
                                 (b : Browser) : Request :=
  mkRequest (API_URL +:+ "/api/analyze") "POST"
            [("Authorization", Common.bearer b)]
            (FormDataBody (prepare_formData file form)).

(** The colour of the severity text in [displayResults]. *)
Definition severityColor (severity : string) : string :=
  if String.eqb severity "Severe" then "var(--danger)"
  else if String.eqb severity "Moderate" then "var(--warning)"
  else if String.eqb severity "Mild" then "var(--secondary)"
  else "var(--info)".

(** [displayResults].  Without the results area it returns at once.
    Else the template is evaluated: [data.confidence.toFixed],
    [data.affected_regions.map] and [data.recommendations.map] throw a
    [TypeError] on a missing property, before anything is written; a
    missing property that is only printed shows as "undefined". *)
Definition displayResults (data : AnalyzeBody) (b : Browser) : Completion :=
  match results b with
  | None => Returns b
  | Some _ =>
      match confidence data, affected_regions data, recommendations data with
      | Some confidence, Some regions, Some recs =>
          Returns
            (set_results
               (Some (Some (mkResultsView
                              (Js.to_string (disease data))
                              (Js.to_string (severity data))
                              (severityColor (Js.to_string (severity data)))
                              confidence regions recs
                              (Js.to_string (pretty <$> analysis_id data))))) b)
      | _, _, _ => Throws
      end
  end.

(** [handleAnalyze]; [net] is the outcome of its [fetch] and of
    [response.json()].  An exception of [displayResults] is caught like a
    failure of the network.  The disabling of the submit button and its
    loader are not part of the state. *)
Definition handleAnalyze (form : PatientForm) (net : FetchOutcome AnalyzeBody)
                         (b : Browser) : Browser :=
  match selectedFile b with
  | None => Common.showAlert "Please upload an X-ray image first" "error" b
  | Some file =>
      let b := fetch (handleAnalyze_request file form b) b in
      match net with
      | Response ok (Some data) =>
          if ok then
            match displayResults data b with
            | Returns b =>
                Common.showAlert "Analysis completed successfully!" "success" b
            | Throws =>
                Common.showAlert "Network error. Please check your connection."
                  "error" b
            end
          else
            Common.showAlert
              (Js.or (detail data) "Analysis failed. Please try again.") "error" b
      | Response _ None | FetchRejects =>
          Common.showAlert "Network error. Please check your connection." "error" b
      end
  end.

(** The [click] listener of [#removeImage]. *)
Definition removeImage (b : Browser) : Browser :=
  mkBrowser (localStorage b) (dataTheme b) (href b) (alerts b) (timers b)
            (fetches b) (downloads b) (recordsTable b) (results b) None.

End Analysis.

(** ** The records browser (unnamed/part_000, lines 1-380) *)

(** White space of the HTML templates: a line break and its indentation. *)
Fixpoint spaces (n : nat) : string :=
  match n with
  | O => ""
  | S n' => String " "%char (spaces n')
  end.
Definition indent (n : nat) : string := String (ascii_of_nat 10) (spaces n).

Module Records.

Definition getAuthHeaders (b : Browser) : list (string * string) :=
  [("Authorization", Common.bearer b); ("Content-Type", "application/json")].

(** [severityClass] in [displayRecords]. *)
Definition displayRecords_severityClass (severity : string) : string :=
  if String.eqb severity "Severe" then "danger"
  else if String.eqb severity "Moderate" then "warning"
  else if String.eqb severity "Mild" then "success"
  else "info".

(** [severityClass] in [showRecordModal]. *)
Definition showRecordModal_severityClass (severity : string) : string :=
  if String.eqb severity "Severe" then "danger"
  else if String.eqb severity "Moderate" then "warning"
  else if String.eqb severity "Mild" then "success"
  else "info".

(** The one [<tr>] of the empty-state markup, with the text of its two
    paragraphs. *)
Definition emptyStateRow : Row :=
  mkRow (indent 16 +:+ indent 20 +:+ "No records found" +:+ indent 20 +:+
         "Start analyzing X-rays to see records here" +:+ indent 16 +:+ indent 12)
        "" None None.

Section Rendering.

(** [Number.prototype.toFixed(1)] and [Date.prototype.toLocaleString]
    belong to the runtime (floating point, locale); the code below is
    parametric in them. *)
Variables Confidence Timestamp : Type.
Variable toFixed1 : Confidence → string.
Variable toLocaleString : Timestamp → string.

(** An element of [records] in the answer to [GET /api/records]. *)
Record ApiRecord := mkApiRecord {
  id : N;
  patient_name : string;
  patient_age : N;
  patient_gender : string;
  disease : string;
  severity : string;
  confidence : Confidence;
  timestamp : Timestamp
}.

(** The row built for one record; the interpolated texts are taken to
    be free of markup, so that [textContent] is the text of the six
    cells and the white space between them. *)
Definition recordRow (record : ApiRecord) : Row :=
  let severityClass := displayRecords_severityClass (severity record) in
  let date := toLocaleString (timestamp record) in
  mkRow (indent 12 +:+ patient_name record +:+
         indent 12 +:+ pretty (patient_age record) +:+ " years, " +:+
                       patient_gender record +:+
         indent 12 +:+ disease record +:+
         indent 12 +:+ severity record +:+
         indent 12 +:+ toFixed1 (confidence record) +:+ "%" +:+
         indent 12 +:+ date +:+ indent 8)
        "" (Some ("badge badge-" +:+ severityClass)) (Some (id record)).

(** [displayRecords]: nothing without [#recordsTable]; else the body is
    emptied and refilled, [forEach] appending row after row. *)
Definition displayRecords (records : list ApiRecord) (b : Browser) : Browser :=
  match recordsTable b with
  | None => b
  | Some _ =>
      let tbody : list Row := [] in
      if decide (length records = 0) then set_recordsTable (Some [emptyStateRow]) b
      else
        set_recordsTable
          (Some (foldl (λ tbody record, tbody ++ [recordRow record]) tbody records)) b
  end.

(** [loadAllRecords]; the body is read only when the response is ok. *)
Definition loadAllRecords (net : FetchOutcome (list ApiRecord))
                          (b : Browser) : Browser :=
  let b := fetch (mkRequest (API_URL +:+ "/api/records") "GET"
                            (getAuthHeaders b) NoBody) b in
  match net with
  | Response true (Some records) => displayRecords records b
  | Response false _ => b
  | Response true None | FetchRejects =>
      Common.showAlert "Failed to load records" "error" b
  end.

End Rendering.

(** The [input] listener installed by [setupSearch], called with
    [e.target.value].  [String.prototype.toLowerCase] maps case as Unicode
    has it and belongs to the runtime; the code is parametric in it. *)
Definition setupSearch_input (toLowerCase : string → string)
                             (value : string) (b : Browser) : Browser :=
  let searchTerm := toLowerCase value in
  match recordsTable b with
  | None => b
  | Some rows =>
      set_recordsTable
        (Some ((λ row,
                 let text := toLowerCase (row_text row) in
                 mkRow (row_text row)
                       (if Js.includes text searchTerm then "" else "none")
                       (row_badge row) (row_opens row)) <$> rows)) b
  end.

(** What [showRecordModal] puts into the overlay: the text of the
    paragraphs under "Patient Information" and under "Analysis Results", the
    class of the severity badge, the entries of the "Vital Signs" block when
    the block is rendered, the symptoms, the items of the recommendation
    list and the argument of [downloadReport] in the button. *)
Record Modal := mkModal {
  modal_patient : list string;
  modal_analysis : list string;
  modal_badge : string;
  modal_vitals : option (list string);
  modal_symptoms : string;
  modal_recommendations : list string;
  modal_download : N
}.

Section Detail.

(** Numbers of the JSON answer stay abstract: [vital_truthy] is the
    truth value of a number (false for zero) and [vital_text] its
    interpolation into a template. *)
Variables Confidence Timestamp Vital : Type.
Variable toFixed1 : Confidence → string.
Variable toLocaleString : Timestamp → string.
Variable vital_truthy : Vital → bool.
Variable vital_text : Vital → string.

(** [data.analysis.vital_signs]; a sign that was not recorded is [null]. *)
Record VitalSigns := mkVitalSigns {
  vs_temperature : option Vital;
  vs_oxygen_saturation : option Vital;
  vs_heart_rate : option Vital;
  vs_respiratory_rate : option Vital
}.

(** The answer to [GET /api/records/{id}]. *)
Record RecordDetail := mkRecordDetail {
  rd_name : string;
  rd_age : N;
  rd_gender : string;
  rd_medical_history : option string;
  rd_disease : string;
  rd_severity : string;
  rd_confidence : Confidence;
  rd_timestamp : Timestamp;
  rd_symptoms : string;
  rd_recommendations : string;
  rd_vital_signs : VitalSigns
}.

(** The truth value of a vital sign that may be [null]. *)
Definition vital_shown (v : option Vital) : bool :=
  match v with
  | Some x => vital_truthy x
  | None => false
  end.

(** [cond ? `<div><strong>label</strong> ${v}unit</div>` : ""]. *)
Definition vital_entry (label unit : string) (v : option Vital) : list string :=
  match v with
  | Some x => if vital_truthy x then [label +:+ " " +:+ vital_text x +:+ unit] else []
  | None => []
  end.

Definition showRecordModal (data : RecordDetail) (analysisId : N) : Modal :=
  let vitalSigns := rd_vital_signs data in
  let hasVitals :=
    vital_shown (vs_temperature vitalSigns) ||
    vital_shown (vs_oxygen_saturation vitalSigns) ||
    vital_shown (vs_heart_rate vitalSigns) ||
    vital_shown (vs_respiratory_rate vitalSigns) in
  let severityClass := showRecordModal_severityClass (rd_severity data) in
  mkModal
    (["Name: " +:+ rd_name data;
      "Age: " +:+ pretty (rd_age data) +:+ " years";
      "Gender: " +:+ rd_gender data] ++
     (if Js.truthy (rd_medical_history data)
      then ["Medical History: " +:+ default "" (rd_medical_history data)]
      else []))
    ["Disease: " +:+ rd_disease data;
     "Severity: " +:+ rd_severity data;
     "Confidence: " +:+ toFixed1 (rd_confidence data) +:+ "%";
     "Date: " +:+ toLocaleString (rd_timestamp data)]
    severityClass
    (if hasVitals then
       Some (vital_entry "Temperature:" "°C" (vs_temperature vitalSigns) ++
             vital_entry "O₂ Saturation:" "%" (vs_oxygen_saturation vitalSigns) ++
             vital_entry "Heart Rate:" " bpm" (vs_heart_rate vitalSigns) ++
             vital_entry "Resp. Rate:" " breaths/min" (vs_respiratory_rate vitalSigns))
     else None)
    (rd_symptoms data)
    (Js.split (rd_recommendations data) ", ")
    analysisId.

(** [viewRecordDetail]: the state after the call and the overlay appended
    to the document, if any.  The body is read only when the response is
    ok. *)
Definition viewRecordDetail (analysisId : N) (net : FetchOutcome RecordDetail)
                            (b : Browser) : Browser * option Modal :=
  let b := fetch (mkRequest (API_URL +:+ "/api/records/" +:+ pretty analysisId) "GET"
                            (getAuthHeaders b) NoBody) b in
  match net with
  | Response true (Some data) => (b, Some (showRecordModal data analysisId))
  | Response false _ => (b, None)
  | Response true None | FetchRejects =>
      (Common.showAlert "Failed to load record details" "error" b, None)
  end.

(** [initRecordsPage]: the value of [checkAuth] is not looked at. *)
Definition initRecordsPage
    (net : FetchOutcome (list (ApiRecord Confidence Timestamp)))
    (b : Browser) : Browser :=
  let b := (Common.checkAuth b).2 in
  loadAllRecords Confidence Timestamp toFixed1 toLocaleString net b.

End Detail.

End Records.

(** ** The records browser, revision headed "Patient Records Page Logic"
    (unnamed/part_000, lines 381-639)

    [displayRecords] and [setupSearch] have the text of the other
    revision; [showRecordModal] computes the badge class inline. *)

Module RecordsPage.

Definition displayRecords_severityClass := Records.displayRecords_severityClass.
Definition displayRecords := Records.displayRecords.
Definition setupSearch_input := Records.setupSearch_input.

(** The class interpolated after [badge-] in [showRecordModal]. *)
Definition showRecordModal_badge (severity : string) : string :=
  if String.eqb severity "Severe" then "danger"
  else if String.eqb severity "Moderate" then "warning"
  else "success".

End RecordsPage.

(** ** The dashboard (unnamed/part_000, lines 640-901) *)

Module Dashboard.

(** [severityClass] in [displayRecentAnalyses]. *)
Definition displayRecentAnalyses_severityClass (severity : string) : string :=
  if String.eqb severity "Severe" then "danger"
  else if String.eqb severity "Moderate" then "warning"
  else if String.eqb severity "Mild" then "success"
  else "info".

(** A [<tr>] of the table of recent analyses: its [textContent], the
    class of its badge and the address a click on it leads to. *)
Record RecentRow := mkRecentRow {
  recent_text : string;
  recent_badge : option string;
  recent_href : option string
}.

Definition emptyStateRow : RecentRow :=
  mkRecentRow (indent 16 +:+ indent 20 +:+
               "No analyses yet. Start by analyzing your first X-ray!" +:+
               indent 16 +:+ indent 12)
              None None.

Section Recent.

Variables Confidence Timestamp : Type.
Variable toFixed1 : Confidence → string.
Variable toLocaleDateString : Timestamp → string.

Definition recentRow (record : Records.ApiRecord Confidence Timestamp) : RecentRow :=
  let severityClass :=
    displayRecentAnalyses_severityClass (Records.severity _ _ record) in
  let date := toLocaleDateString (Records.timestamp _ _ record) in
  mkRecentRow (indent 12 +:+ Records.patient_name _ _ record +:+
               indent 12 +:+ Records.disease _ _ record +:+
               indent 12 +:+ Records.severity _ _ record +:+
               indent 12 +:+ toFixed1 (Records.confidence _ _ record) +:+ "%" +:+
               indent 12 +:+ date +:+ indent 8)
              (Some ("badge badge-" +:+ severityClass))
              (Some ("records.html?id=" +:+ pretty (Records.id _ _ record))).

(** [displayRecentAnalyses]; [tbody] holds the rows of [#recentAnalyses]
    when the page has that element. *)
Definition displayRecentAnalyses
    (records : list (Records.ApiRecord Confidence Timestamp))
    (tbody : option (list RecentRow)) : option (list RecentRow) :=
  match tbody with
  | None => None
  | Some _ =>
      let rows : list RecentRow := [] in
      if decide (length records = 0) then Some [emptyStateRow]
      else Some (foldl (λ rows record, rows ++ [recentRow record]) rows records)
  end.

(** [loadRecentAnalyses]: the first five records are displayed; every
    failure goes to the console only. *)
Definition loadRecentAnalyses
    (net : FetchOutcome (list (Records.ApiRecord Confidence Timestamp)))
    (b : Browser) (tbody : option (list RecentRow))
    : Browser * option (list RecentRow) :=
  let b := fetch (mkRequest (API_URL +:+ "/api/records") "GET"
                            (Records.getAuthHeaders b) NoBody) b in
  match net with
  | Response true (Some records) => (b, displayRecentAnalyses (take 5 records) tbody)
  | Response true None | Response false _ | FetchRejects => (b, tbody)
  end.

(** [loadStatistics]: the stat cards and the chart it fills are not part
    of the state, which only sees the request. *)
Definition loadStatistics (b : Browser) : Browser :=
  fetch (mkRequest (API_URL +:+ "/api/stats") "GET" (Records.getAuthHeaders b) NoBody) b.

(** [initDashboard]: without a token nothing is loaded.  The doctor name
    it writes into the header is not part of the state. *)
Definition initDashboard
    (net : FetchOutcome (list (Records.ApiRecord Confidence Timestamp)))
    (b : Browser) (tbody : option (list RecentRow))
    : Browser * option (list RecentRow) :=
  let '(token, b) := Common.checkAuth b in
  match token with
  | None => (b, tbody)
  | Some _ => loadRecentAnalyses net (loadStatistics b) tbody
  end.

End Recent.

End Dashboard.

(** ** Vocabulary of the properties *)

Module Spec.

(** The visual class of a severity as the specification words it. *)
Definition severity_class (severity : string) : string :=
  if decide (severity = "Severe") then "danger"
  else if decide (severity = "Moderate") then "warning"
  else if decide (severity = "Mild") then "success"
  else "info".

(** The CSS colour named by a class. *)
Definition css_var (class : string) : string := "var(--" +:+ class +:+ ")".

(** [FormData.prototype.getAll]: the values sent under a key, in order. *)
Definition getAll (name : string) (formData : list (string * FormValue))
    : list FormValue :=
  snd <$> filter (λ e, e.1 = name) formData.

(** The four vital-sign controls with their form values. *)
Definition vital_signs (form : Analysis.PatientForm) : list (string * string) :=
  [("temperature", Analysis.temperature form);
   ("oxygen_saturation", Analysis.oxygen_saturation form);
   ("heart_rate", Analysis.heart_rate form);
   ("respiratory_rate", Analysis.respiratory_rate form)].

(** [text] contains [query] without regard to case: the lower case of
    [query], as the runtime's [toLowerCase] gives it, is a stretch of the
    lower case of [text]. *)
Definition contains_nocase (toLowerCase : string → string)
                           (text query : string) : Prop :=
  ∃ pre post, toLowerCase text = pre +:+ toLowerCase query +:+ post.

(** The same for text of ASCII characters, said without any case mapping:
    two characters are the same letter when they are equal or one is a
    capital A-Z and the other the small letter 32 places on; a stretch of
    [text] agrees with [query] letter by letter. *)
Definition is_capital (c : ascii) : bool :=
  ((65 <=? N_of_ascii c) && (N_of_ascii c <=? 90))%N.

Definition same_letter (c d : ascii) : Prop :=
  c = d ∨
  (is_capital c = true ∧ N_of_ascii d = (N_of_ascii c + 32)%N) ∨
  (is_capital d = true ∧ N_of_ascii c = (N_of_ascii d + 32)%N).

Fixpoint same_up_to_case (s t : string) : Prop :=
  match s, t with
  | EmptyString, EmptyString => True
  | String c s', String d t' => same_letter c d ∧ same_up_to_case s' t'
  | _, _ => False
  end.

Definition contains_up_to_case (text query : string) : Prop :=
  ∃ pre mid post, text = pre +:+ mid +:+ post ∧ same_up_to_case mid query.

Fixpoint ascii_text (s : string) : Prop :=
  match s with
  | EmptyString => True
  | String c t => (N_of_ascii c < 128)%N ∧ ascii_text t
  end.

(** The case mappings on text of ASCII characters: A-Z and a-z are 32
    places apart and nothing else moves.  On such text this is what
    [toLowerCase] and [toUpperCase] of the runtime do. *)
Definition ascii_lower_char (c : ascii) : ascii :=
  if is_capital c then ascii_of_N (N_of_ascii c + 32) else c.

Fixpoint ascii_lower (s : string) : string :=
  match s with
  | EmptyString => EmptyString
  | String c t => String (ascii_lower_char c) (ascii_lower t)
  end.

Definition ascii_upper_char (c : ascii) : ascii :=
  if ((97 <=? N_of_ascii c) && (N_of_ascii c <=? 122))%N
  then ascii_of_N (N_of_ascii c - 32) else c.

Fixpoint ascii_upper (s : string) : string :=
  match s with
  | EmptyString => EmptyString
  | String c t => String (ascii_upper_char c) (ascii_upper t)
  end.

(** A case mapping of the runtime does on ASCII text what the ASCII
    mapping does. *)
Definition agrees_on_ascii (f g : string → string) : Prop :=
  ∀ s, ascii_text s → f s = g s.

(** A row is shown unless its [style.display] hides it. *)
Definition visible (row : Row) : Prop := row_display row = "".

(** The three keys of a session in [localStorage]. *)
Definition session_keys : list string := ["token"; "doctorName"; "doctorId"].

End Spec.

(** ** Sample inputs *)

Module Sample.

(** A freshly loaded page: empty storage, nothing rendered. *)
Definition page : Browser := mkBrowser ∅ None "" [] [] [] [] None None None.

Definition xray : File := mkFile "chest.png" "image/png".

(** The analysis page of a logged-in doctor after an image was chosen. *)
Definition analysis_page : Browser :=
  Analysis.handleFileSelect (Some xray) (setItem "token" "t0k3n" page).

(** A form with no symptom ticked, no history and no vital sign. *)
Definition bare_form : Analysis.PatientForm :=
  Analysis.mkPatientForm "Jane Doe" "34" "Female"
    [Analysis.mkCheckbox "Cough" false; Analysis.mkCheckbox "Fever" false]
    "" "" "" "" "".

(** Two symptoms ticked, a history, and two of the four vital signs. *)
Definition full_form : Analysis.PatientForm :=
  Analysis.mkPatientForm "John Smith" "61" "Male"
    [Analysis.mkCheckbox "Cough" true; Analysis.mkCheckbox "Fever" false;
     Analysis.mkCheckbox "Chest pain" true]
    "Asthma" "38.5" "" "92" "".

(** A form whose only ticked checkbox has an empty [value] attribute. *)
Definition empty_value_form : Analysis.PatientForm :=
  Analysis.mkPatientForm "Jane Doe" "34" "Female"
    [Analysis.mkCheckbox "" true; Analysis.mkCheckbox "Fever" false]
    "" "" "" "" "".

End Sample.

(** * Properties *)

(** ** Severity classes *)

(** Case analysis on every [===] between strings left in the goal. *)
Ltac string_eqb_cases :=
  repeat match goal with
         | |- context [String.eqb ?a ?b] =>
             destruct (String.eqb_spec a b); simplify_eq/=
         end.

Ltac severity_cases :=
  string_eqb_cases; repeat case_decide; simplify_eq/=; try reflexivity.

Lemma displayRecords_severityClass_spec (s : string) :
  Records.displayRecords_severityClass s = Spec.severity_class s.
Proof.
  unfold Records.displayRecords_severityClass, Spec.severity_class.
  severity_cases.
Qed.

(** C1, as stated, fails.  [displayResults] colours a Mild severity with
    [var(--secondary)], which names neither the class [success] nor its
    colour; and the second revision's [showRecordModal] has no branch for
    Mild, so that a severity outside the three known ones gets [success]
    where the mapping says [info]. *)
Lemma severity_class_counterexample :
  Analysis.severityColor "Mild" = "var(--secondary)" ∧
  Spec.severity_class "Mild" = "success" ∧
  RecordsPage.showRecordModal_badge "Critical" = "success" ∧
  Spec.severity_class "Critical" = "info" ∧
  ¬ (∀ s : string,
       Records.displayRecords_severityClass s = Spec.severity_class s ∧
       Records.showRecordModal_severityClass s = Spec.severity_class s ∧
       RecordsPage.showRecordModal_badge s = Spec.severity_class s ∧
       (Analysis.severityColor s = Spec.severity_class s ∨
        Analysis.severityColor s = Spec.css_var (Spec.severity_class s))).
Proof.
  repeat (split; [reflexivity|]).
  intros H. destruct (H "Mild") as (_ & _ & _ & [Hc | Hc]); vm_compute in Hc; discriminate Hc.
Qed.

(** C1 (amended): for every severity string, the badge class of
    [displayRecords] (both revisions), of the first revision's
    [showRecordModal] and of [displayRecentAnalyses] is danger for Severe,
    warning for Moderate, success for Mild and info for anything else;
    [displayResults] colours the severity text with var(--danger),
    var(--warning), var(--secondary) and var(--info) respectively; the second
    revision's [showRecordModal] agrees with the mapping on Severe, Moderate
    and Mild. *)
Theorem severity_class_total (s : string) :
  Records.displayRecords_severityClass s = Spec.severity_class s ∧
  RecordsPage.displayRecords_severityClass s = Spec.severity_class s ∧
  Records.showRecordModal_severityClass s = Spec.severity_class s ∧
  Dashboard.displayRecentAnalyses_severityClass s = Spec.severity_class s ∧
  Analysis.severityColor s =
    (if decide (s = "Mild") then "var(--secondary)"
     else Spec.css_var (Spec.severity_class s)) ∧
  (s ∈ ["Severe"; "Moderate"; "Mild"] →
   RecordsPage.showRecordModal_badge s = Spec.severity_class s).
Proof.
  repeat split; try apply displayRecords_severityClass_spec.
  - unfold Analysis.severityColor, Spec.severity_class.
    severity_cases.
  - intros Hs. repeat (apply elem_of_cons in Hs as [-> | Hs]); try reflexivity.
    by apply elem_of_nil in Hs.
Qed.

Lemma severity_class_total_witness :
  "Mild" ∈ ["Severe"; "Moderate"; "Mild"] ∧
  RecordsPage.showRecordModal_badge "Mild" = "success".
Proof.
  assert (Hin : "Mild" ∈ ["Severe"; "Moderate"; "Mild"]).
  { apply elem_of_cons; right. apply elem_of_cons; right. apply elem_of_cons; left. reflexivity. }
  split; [exact Hin |].
  exact (proj2 (proj2 (proj2 (proj2 (proj2 (severity_class_total "Mild"))))) Hin).
Defined.

(** ** The analysis request *)

(** [displayResults] writes the results area and nothing else. *)
Lemma displayResults_frame data b :
  match Analysis.displayResults data b with
  | Returns b' =>
      fetches b' = fetches b ∧ alerts b' = alerts b ∧
      localStorage b' = localStorage b ∧ selectedFile b' = selectedFile b
  | Throws => True
  end.
Proof.
  unfold Analysis.displayResults. destruct (results b); [|done].
  by destruct (Analysis.confidence data), (Analysis.affected_regions data),
    (Analysis.recommendations data).
Qed.

(** A submission with a selected file issues exactly one request, with the
    assembled [FormData] as its body. *)
Lemma handleAnalyze_fetches form net b file :
  selectedFile b = Some file →
  fetches (Analysis.handleAnalyze form net b) =
  fetches b ++ [Analysis.handleAnalyze_request file form b].
Proof.
  intros Hfile. unfold Analysis.handleAnalyze. rewrite Hfile.
  destruct net as [|[] [data|]]; try reflexivity. cbv zeta.
  pose proof (displayResults_frame data
                (fetch (Analysis.handleAnalyze_request file form b) b)) as Hframe.
  destruct (Analysis.displayResults data _) as [b'|]; [|reflexivity].
  destruct Hframe as (Hfetches & _). simpl. by rewrite Hfetches.
Qed.

(** Without a selected file nothing is requested. *)
Lemma handleAnalyze_no_file form net b :
  selectedFile b = None →
  fetches (Analysis.handleAnalyze form net b) = fetches b.
Proof. intros Hfile. unfold Analysis.handleAnalyze. by rewrite Hfile. Qed.

Lemma getAll_app name (l1 l2 : list (string * FormValue)) :
  Spec.getAll name (l1 ++ l2) = Spec.getAll name l1 ++ Spec.getAll name l2.
Proof. unfold Spec.getAll. by rewrite filter_app, fmap_app. Qed.

Lemma getAll_append_if_value name name' value formData :
  Spec.getAll name (Analysis.append_if_value name' value formData) =
  Spec.getAll name formData ++
  (if decide (name' = name ∧ value ≠ "") then [FvString value] else []).
Proof.
  unfold Analysis.append_if_value, Js.truthy.
  destruct (String.eqb_spec value "") as [Hv | Hv]; simpl.
  - rewrite decide_False by (intros [_ Hne]; done). by rewrite app_nil_r.
  - rewrite getAll_app. f_equal. unfold Spec.getAll.
    rewrite filter_cons, filter_nil. simpl.
    destruct (decide (name' = name)) as [Hn | Hn].
    + by rewrite decide_True.
    + by rewrite decide_False by (intros [Heq _]; done).
Qed.

Lemma getAll_nil_not_key name (formData : list (string * FormValue)) :
  Spec.getAll name formData = [] → name ∉ formData.*1.
Proof.
  unfold Spec.getAll. intros Hnil Hin.
  apply list_elem_of_fmap in Hin as ([k v] & Hk & Hin). simpl in Hk. subst k.
  assert (Hf : (name, v) ∈ filter (λ e : string * FormValue, e.1 = name) formData)
    by (apply list_elem_of_filter; done).
  apply fmap_nil_inv in Hnil. rewrite Hnil in Hf. by apply elem_of_nil in Hf.
Qed.

(** C2: a submission sends each vital-sign field with a non-blank value
    once, with that value, and has no key at all for a blank one. *)
Theorem vital_signs_sent_iff_supplied form net b file :
  selectedFile b = Some file →
  ∃ req formData,
    fetches (Analysis.handleAnalyze form net b) = fetches b ++ [req] ∧
    req_body req = FormDataBody formData ∧
    ∀ name value, (name, value) ∈ Spec.vital_signs form →
      (value = "" → name ∉ formData.*1) ∧
      (value ≠ "" → Spec.getAll name formData = [FvString value]).
Proof.
  intros Hfile. eexists _, _. split; [by apply handleAnalyze_fetches|].
  split; [reflexivity|].
  assert (Hall : ∀ name value, (name, value) ∈ Spec.vital_signs form →
            Spec.getAll name (Analysis.prepare_formData file form) =
            if decide (value = "") then [] else [FvString value]).
  { intros name value Hin. unfold Analysis.prepare_formData.
    rewrite !getAll_append_if_value.
    unfold Spec.vital_signs in Hin.
    repeat (apply elem_of_cons in Hin as [Heq | Hin]; [simplify_eq|]);
      [..|by apply elem_of_nil in Hin];
      destruct (decide (_ = "")) as [->|Hne]; simpl;
      repeat (rewrite decide_False by (intros [? ?]; done));
      repeat (rewrite decide_True by done);
      reflexivity. }
  intros name value Hin. specialize (Hall name value Hin). split.
  - intros ->. rewrite decide_True in Hall by done. by apply getAll_nil_not_key.
  - intros Hne. by rewrite decide_False in Hall.
Qed.

Lemma vital_signs_sent_iff_supplied_witness :
  selectedFile Sample.analysis_page = Some Sample.xray ∧
  ∃ req formData,
    fetches (Analysis.handleAnalyze Sample.full_form FetchRejects Sample.analysis_page) =
      fetches Sample.analysis_page ++ [req] ∧
    req_body req = FormDataBody formData ∧
    ∀ name value, (name, value) ∈ Spec.vital_signs Sample.full_form →
      (value = "" → name ∉ formData.*1) ∧
      (value ≠ "" → Spec.getAll name formData = [FvString value]).
Proof.
  split; [reflexivity|].
  apply (vital_signs_sent_iff_supplied Sample.full_form FetchRejects
           Sample.analysis_page Sample.xray).
  reflexivity.
Defined.

Example full_form_request :
  fetches (Analysis.handleAnalyze Sample.full_form FetchRejects Sample.analysis_page) =
  [mkRequest "http://localhost:8000/api/analyze" "POST"
     [("Authorization", "Bearer t0k3n")]
     (FormDataBody
        [("image", FvFile Sample.xray);
         ("patient_name", FvString "John Smith");
         ("patient_age", FvString "61");
         ("patient_gender", FvString "Male");
         ("symptoms", FvString "Cough, Chest pain");
         ("medical_history", FvString "Asthma");
         ("temperature", FvString "38.5");
         ("heart_rate", FvString "92")])].
Proof. reflexivity. Qed.

(** [join] gives the empty text for no value and for a single empty value
    only. *)
Lemma join_empty_iff (xs : list string) :
  Js.join ", " xs = "" ↔ xs = [] ∨ xs = [""].
Proof.
  destruct xs as [|x [|y rest]]; simpl.
  - naive_solver.
  - split; [intros ->; by right | intros [? | ?]; by simplify_eq].
  - split; [destruct x; discriminate | intros [? | ?]; discriminate].
Qed.

Lemma getAll_symptoms file form :
  Spec.getAll "symptoms" (Analysis.prepare_formData file form) =
  [FvString (Js.or (Some (Js.join ", " (Analysis.checked_symptoms form)))
                   "None reported")].
Proof.
  unfold Analysis.prepare_formData. rewrite !getAll_append_if_value.
  repeat (rewrite decide_False by (intros [? ?]; done)). reflexivity.
Qed.

Lemma getAll_medical_history file form :
  Spec.getAll "medical_history" (Analysis.prepare_formData file form) =
  [FvString (Analysis.medical_history form)].
Proof.
  unfold Analysis.prepare_formData. rewrite !getAll_append_if_value.
  repeat (rewrite decide_False by (intros [? ?]; done)).
  simpl. unfold Js.or. by destruct (String.eqb_spec (Analysis.medical_history form) "") as [->|].
Qed.

(** C3, as stated, fails when the only ticked checkbox has the empty string
    as its value: the checked set is not empty, yet the request carries
    "None reported" and not the joined values. *)
Lemma symptoms_counterexample :
  let checked := Analysis.checked_symptoms Sample.empty_value_form in
  checked ≠ [] ∧
  ∃ formData,
    (req_body <$> fetches (Analysis.handleAnalyze Sample.empty_value_form FetchRejects
                             Sample.analysis_page)) = [FormDataBody formData] ∧
    Spec.getAll "symptoms" formData = [FvString "None reported"] ∧
    Spec.getAll "symptoms" formData ≠ [FvString (Js.join ", " checked)].
Proof.
  split; [discriminate|]. eexists. split; [reflexivity|]. split; [reflexivity|].
  discriminate.
Qed.

(** C3 (amended): the symptoms value of a submission is the checked values
    joined by ", ", except that it is exactly "None reported" when nothing
    is checked or when the only checked box has the empty string as its
    value. *)
Theorem symptoms_joined_or_none_reported form net b file :
  selectedFile b = Some file →
  ∃ req formData,
    fetches (Analysis.handleAnalyze form net b) = fetches b ++ [req] ∧
    req_body req = FormDataBody formData ∧
    let checked := Analysis.checked_symptoms form in
    Spec.getAll "symptoms" formData =
      [FvString (if decide (checked = [] ∨ checked = [""])
                 then "None reported" else Js.join ", " checked)].
Proof.
  intros Hfile. eexists _, _. split; [by apply handleAnalyze_fetches|].
  split; [reflexivity|]. simpl. rewrite getAll_symptoms. unfold Js.or.
  destruct (String.eqb_spec (Js.join ", " (Analysis.checked_symptoms form)) "")
    as [Hj | Hj].
  - by rewrite decide_True by (by apply join_empty_iff).
  - by rewrite decide_False by (by rewrite <- join_empty_iff).
Qed.

Lemma symptoms_joined_or_none_reported_witness :
  selectedFile Sample.analysis_page = Some Sample.xray ∧
  ∃ req formData,
    fetches (Analysis.handleAnalyze Sample.full_form FetchRejects Sample.analysis_page) =
      fetches Sample.analysis_page ++ [req] ∧
    req_body req = FormDataBody formData ∧
    Spec.getAll "symptoms" formData = [FvString "Cough, Chest pain"].
Proof.
  split; [reflexivity|].
  apply (symptoms_joined_or_none_reported Sample.full_form FetchRejects
           Sample.analysis_page Sample.xray).
  reflexivity.
Defined.

(** C4, as stated, fails: with an empty medical history the request still
    has a [medical_history] key, carrying the empty string. *)
Lemma medical_history_counterexample :
  Analysis.medical_history Sample.bare_form = "" ∧
  ∃ formData,
    (req_body <$> fetches (Analysis.handleAnalyze Sample.bare_form FetchRejects
                             Sample.analysis_page)) = [FormDataBody formData] ∧
    "medical_history" ∈ formData.*1 ∧
    Spec.getAll "medical_history" formData = [FvString ""].
Proof.
  split; [reflexivity|]. eexists. split; [reflexivity|]. split; [|reflexivity].
  simpl. do 5 (apply elem_of_cons; right). apply elem_of_cons; left. reflexivity.
Qed.

(** C4 (amended): every submission sends the [medical_history] field exactly
    once, with the form's medical-history value, which is the empty string
    when the control is empty. *)
Theorem medical_history_always_sent form net b file :
  selectedFile b = Some file →
  ∃ req formData,
    fetches (Analysis.handleAnalyze form net b) = fetches b ++ [req] ∧
    req_body req = FormDataBody formData ∧
    Spec.getAll "medical_history" formData = [FvString (Analysis.medical_history form)].
Proof.
  intros Hfile. eexists _, _. split; [by apply handleAnalyze_fetches|].
  split; [reflexivity|]. apply getAll_medical_history.
Qed.

Lemma medical_history_always_sent_witness :
  selectedFile Sample.analysis_page = Some Sample.xray ∧
  ∃ req formData,
    fetches (Analysis.handleAnalyze Sample.bare_form FetchRejects Sample.analysis_page) =
      fetches Sample.analysis_page ++ [req] ∧
    req_body req = FormDataBody formData ∧
    Spec.getAll "medical_history" formData = [FvString ""].
Proof.
  split; [reflexivity|].
  apply (medical_history_always_sent Sample.bare_form FetchRejects
           Sample.analysis_page Sample.xray).
  reflexivity.
Defined.

(** ** Login *)

Lemma showAlert_frame message type b :
  localStorage (Common.showAlert message type b) = localStorage b ∧
  timers (Common.showAlert message type b) = timers b ∧
  href (Common.showAlert message type b) = href b ∧
  fetches (Common.showAlert message type b) = fetches b.
Proof. done. Qed.

(** A login whose network call or body fails stores nothing and reports a
    network error. *)
Lemma handleLogin_network_error form ok b :
  ∀ net, net = FetchRejects ∨ net = Response ok None →
  localStorage (Auth.handleLogin form net b) = localStorage b ∧
  timers (Auth.handleLogin form net b) = timers b ∧
  alerts (Auth.handleLogin form net b) =
    alerts b ++ [mkAlert "Network error. Please check your connection." "error"].
Proof. intros net [-> | ->]; done. Qed.

(** C5: a login answered with success stores the returned token, doctor
    name and doctor id and schedules the redirection to the dashboard one
    second later; a login the server rejects leaves the storage as it was,
    schedules nothing, and shows the detail of the answer verbatim when the
    answer has one (a non-empty [detail], the script testing
    [data.detail || ...]), else the generic message. *)
Theorem handleLogin_outcomes form data b :
  (let b' := Auth.handleLogin form (Response true (Some data)) b in
   (∀ token name id,
      Auth.access_token data = Some token →
      Auth.doctor_name data = Some name →
      Auth.doctor_id data = Some id →
      localStorage b' =
        <["doctorId" := pretty id]>
          (<["doctorName" := name]> (<["token" := token]> (localStorage b))) ∧
      getItem "token" b' = Some token ∧
      getItem "doctorName" b' = Some name ∧
      getItem "doctorId" b' = Some (pretty id)) ∧
   timers b' = timers b ++ [mkTimer 1000 "dashboard.html"] ∧
   href b' = href b ∧
   href (fire (mkTimer 1000 "dashboard.html") b') = "dashboard.html") ∧
  (let b' := Auth.handleLogin form (Response false (Some data)) b in
   localStorage b' = localStorage b ∧
   timers b' = timers b ∧
   href b' = href b ∧
   ∃ shown,
     alerts b' = alerts b ++ [mkAlert shown "error"] ∧
     (∀ message, Auth.detail data = Some message → message ≠ "" → shown = message) ∧
     (Auth.detail data = None ∨ Auth.detail data = Some "" →
      shown = "Login failed. Please check your credentials.")).
Proof.
  split.
  - simpl. split; [|done].
    intros token name id Htoken Hname Hid.
    unfold Auth.handleLogin, getItem. simpl. rewrite Htoken, Hname, Hid. simpl.
    split; [reflexivity|]. split; [|split].
    + rewrite lookup_insert_ne by done. rewrite lookup_insert_ne by done.
      by rewrite lookup_insert_eq.
    + rewrite lookup_insert_ne by done. by rewrite lookup_insert_eq.
    + by rewrite lookup_insert_eq.
  - simpl. repeat (split; [reflexivity|]).
    eexists. split; [reflexivity|]. unfold Js.or. split.
    + intros message -> Hne. by destruct (String.eqb_spec message "").
    + by intros [-> | ->].
Qed.

Lemma handleLogin_outcomes_witness :
  let data := Auth.mkLoginBody (Some "t0k3n") (Some "Dr. Grey") (Some 7%N) None in
  let form := Auth.mkLoginForm "grey@example.org" "correct horse" in
  getItem "token" (Auth.handleLogin form (Response true (Some data)) Sample.page)
    = Some "t0k3n" ∧
  ∃ shown,
    alerts (Auth.handleLogin form
              (Response false (Some (Auth.mkLoginBody None None None
                                       (Some "Incorrect email or password"))))
              Sample.page)
      = [mkAlert shown "error"] ∧
    shown = "Incorrect email or password".
Proof.
  intros data form. split.
  - destruct (handleLogin_outcomes form data Sample.page) as [[Hok _] _].
    destruct (Hok "t0k3n" "Dr. Grey" 7%N eq_refl eq_refl eq_refl) as (_ & Htoken & _).
    exact Htoken.
  - destruct (handleLogin_outcomes form
                (Auth.mkLoginBody None None None (Some "Incorrect email or password"))
                Sample.page) as [_ (_ & _ & _ & shown & Halerts & Hdetail & _)].
    exists shown. split; [exact Halerts|].
    apply Hdetail; [reflexivity | discriminate].
Defined.

(** ** Theme *)

(** After [initTheme] the attribute holds the stored preference, or "light"
    when none is stored; the storage is not written. *)
Lemma initTheme_attribute b :
  localStorage (Common.initTheme b) = localStorage b ∧
  (∀ t, getItem "theme" b = Some t → t ≠ "" → dataTheme (Common.initTheme b) = Some t) ∧
  (getItem "theme" b = None → dataTheme (Common.initTheme b) = Some "light").
Proof.
  unfold Common.initTheme, Js.or. simpl. split; [done|]. split.
  - intros t -> Hne. by destruct (String.eqb_spec t "").
  - by intros ->.
Qed.

Lemma toggleTheme_flips b :
  dataTheme (Common.toggleTheme b) =
    Some (if decide (dataTheme b = Some "light") then "dark" else "light") ∧
  getItem "theme" (Common.toggleTheme b) = dataTheme (Common.toggleTheme b).
Proof.
  unfold Common.toggleTheme, getItem. simpl. split; [done|].
  by rewrite lookup_insert_eq.
Qed.

(** C8: in a state where the stored preference is "light" or "dark" and the
    attribute of the document root agrees with it, two toggles give back the
    very same state: the stored preference, the attribute, and all else. *)
Theorem toggleTheme_involution b t :
  t ∈ ["light"; "dark"] →
  getItem "theme" b = Some t →
  dataTheme b = Some t →
  Common.toggleTheme (Common.toggleTheme b) = b ∧
  getItem "theme" (Common.toggleTheme (Common.toggleTheme b)) = Some t ∧
  dataTheme (Common.toggleTheme (Common.toggleTheme b)) = Some t ∧
  getItem "theme" (Common.toggleTheme b) ≠ Some t.
Proof.
  intros Ht Hstored Hattr.
  assert (Htwice : Common.toggleTheme (Common.toggleTheme b) = b).
  { destruct b as [storage attr ? ? ? ? ? ? ? ?].
    unfold getItem in Hstored. simpl in Hstored, Hattr. subst attr.
    unfold Common.toggleTheme, setItem, set_localStorage, set_dataTheme. simpl.
    rewrite insert_insert_eq.
    repeat (apply elem_of_cons in Ht as [-> | Ht]); [..|by apply elem_of_nil in Ht];
      simpl; by rewrite (insert_id _ _ _ Hstored). }
  rewrite Htwice. repeat split; try done.
  destruct (toggleTheme_flips b) as [Hflip Hsame]. rewrite Hsame, Hflip, Hattr.
  repeat (apply elem_of_cons in Ht as [-> | Ht]); [..|by apply elem_of_nil in Ht];
    simpl; discriminate.
Qed.

Lemma toggleTheme_involution_witness :
  let b := Common.initTheme (setItem "theme" "dark" Sample.page) in
  "dark" ∈ ["light"; "dark"] ∧
  getItem "theme" b = Some "dark" ∧
  dataTheme b = Some "dark" ∧
  Common.toggleTheme (Common.toggleTheme b) = b.
Proof.
  intros b.
  assert (Hin : "dark" ∈ ["light"; "dark"])
    by (apply elem_of_cons; right; apply elem_of_cons; left; reflexivity).
  split; [exact Hin|]. split; [reflexivity|]. split; [reflexivity|].
  exact (proj1 (toggleTheme_involution b "dark" Hin eq_refl eq_refl)).
Defined.

(** With nothing stored, [initTheme] shows "light" and two toggles leave
    "light" stored where nothing was. *)
Example toggleTheme_unset :
  let b := Common.initTheme Sample.page in
  getItem "theme" b = None ∧
  getItem "theme" (Common.toggleTheme (Common.toggleTheme b)) = Some "light" ∧
  dataTheme (Common.toggleTheme (Common.toggleTheme b)) = dataTheme b.
Proof. repeat split; reflexivity. Qed.

(** ** Report download *)

Lemma bearer_token b token :
  getItem "token" b = Some token → Common.bearer b = "Bearer " +:+ token.
Proof. unfold Common.bearer. by intros ->. Qed.

(** C9: [downloadReport n] calls [fetch] exactly once, for
    [/api/download/report/n] under the API root, with the bearer token as
    its only header; a successful answer whose body can be read offers that
    body as [medical_report_n.pdf]; every other outcome offers nothing and
    shows the error notification. *)
Theorem downloadReport_outcomes (n : N) (net : FetchOutcome string) b :
  let b' := Common.downloadReport n net b in
  (∃ req, fetches b' = fetches b ++ [req] ∧
     req_url req = API_URL +:+ "/api/download/report/" +:+ pretty n ∧
     req_headers req = [("Authorization", Common.bearer b)] ∧
     (∀ token, getItem "token" b = Some token →
        req_headers req = [("Authorization", "Bearer " +:+ token)])) ∧
  (∀ blob, net = Response true (Some blob) →
     downloads b' =
       downloads b ++ [mkDownload ("medical_report_" +:+ pretty n +:+ ".pdf") blob] ∧
     alerts b' = alerts b ++ [mkAlert "Report downloaded successfully!" "success"]) ∧
  ((∀ blob, net ≠ Response true (Some blob)) →
     downloads b' = downloads b ∧
     alerts b' = alerts b ++ [mkAlert "Failed to download report" "error"]).
Proof.
  cbv zeta. split; [|split].
  - exists (Common.downloadReport_request n b).
    split; [destruct net as [|[] []]; reflexivity|].
    split; [reflexivity|]. split; [reflexivity|].
    intros token Htoken. simpl. by rewrite (bearer_token _ _ Htoken).
  - by intros blob ->.
  - intros Hfail. destruct net as [|[] [blob|]]; try done.
    by destruct (Hfail blob).
Qed.

Lemma downloadReport_outcomes_witness :
  let b := setItem "token" "t0k3n" Sample.page in
  fetches (Common.downloadReport 42 (Response true (Some "%PDF")) b) =
    [mkRequest "http://localhost:8000/api/download/report/42" "GET"
               [("Authorization", "Bearer t0k3n")] NoBody] ∧
  downloads (Common.downloadReport 42 (Response true (Some "%PDF")) b) =
    [mkDownload "medical_report_42.pdf" "%PDF"] ∧
  alerts (Common.downloadReport 42 (Response false None) b) =
    [mkAlert "Failed to download report" "error"].
Proof.
  intros b. split; [reflexivity|]. split.
  - destruct (downloadReport_outcomes 42 (Response true (Some "%PDF")) b)
      as (_ & Hok & _).
    exact (proj1 (Hok "%PDF" eq_refl)).
  - destruct (downloadReport_outcomes 42 (Response false None) b) as (_ & _ & Hfail).
    apply Hfail. intros blob. discriminate.
Defined.

(** ** Logout *)

(** C10: logout removes the three session keys from [localStorage] and
    leaves every other key as it was; in particular the theme preference is
    kept, also through a following login, whatever its outcome, so that the
    next [initTheme] shows the same theme. *)
Theorem handleLogout_frame b :
  let b' := Common.handleLogout b in
  (∀ k, k ∈ Spec.session_keys → getItem k b' = None) ∧
  (∀ k, k ∉ Spec.session_keys → getItem k b' = getItem k b) ∧
  getItem "theme" b' = getItem "theme" b ∧
  (∀ form net, getItem "theme" (Auth.handleLogin form net b') = getItem "theme" b) ∧
  (∀ form net, dataTheme (Common.initTheme (Auth.handleLogin form net b'))
               = dataTheme (Common.initTheme b)).
Proof.
  simpl.
  assert (Hother : ∀ k, k ∉ Spec.session_keys →
            getItem k (Common.handleLogout b) = getItem k b).
  { intros k Hk. unfold Common.handleLogout, getItem, Spec.session_keys in *. simpl.
    rewrite !lookup_delete_ne; [done|..]; intros <-; apply Hk;
      repeat first [apply list_elem_of_here | apply list_elem_of_further]. }
  assert (Htheme : ∀ form net,
            getItem "theme" (Auth.handleLogin form net (Common.handleLogout b))
            = getItem "theme" b).
  { intros form net. rewrite <- (Hother "theme").
    - unfold Auth.handleLogin, getItem. destruct net as [|[] [data|]]; try done.
      simpl. by rewrite !lookup_insert_ne.
    - unfold Spec.session_keys. intros Hin.
      repeat (apply elem_of_cons in Hin as [? | Hin]; [discriminate|]).
      by apply elem_of_nil in Hin. }
  split; [|split; [exact Hother|split; [|split; [exact Htheme|]]]].
  - intros k Hk. unfold Common.handleLogout, getItem, Spec.session_keys in *. simpl.
    repeat (apply elem_of_cons in Hk as [-> | Hk]); [..|by apply elem_of_nil in Hk].
    + rewrite !lookup_delete_ne by done. by rewrite lookup_delete_eq.
    + rewrite lookup_delete_ne by done. by rewrite lookup_delete_eq.
    + by rewrite lookup_delete_eq.
  - apply Hother. unfold Spec.session_keys. intros Hin.
    repeat (apply elem_of_cons in Hin as [? | Hin]; [discriminate|]).
    by apply elem_of_nil in Hin.
  - intros form net. unfold Common.initTheme. simpl. by rewrite Htheme.
Qed.

Lemma handleLogout_frame_witness :
  let b := setItem "theme" "dark" (setItem "doctorId" "7" (setItem "doctorName" "Dr. Grey"
             (setItem "token" "t0k3n" Sample.page))) in
  ("token" ∈ Spec.session_keys) ∧ ("theme" ∉ Spec.session_keys) ∧
  getItem "token" (Common.handleLogout b) = None ∧
  getItem "theme" (Common.handleLogout b) = Some "dark".
Proof.
  intros b.
  assert (Hin : "token" ∈ Spec.session_keys) by apply list_elem_of_here.
  assert (Hout : "theme" ∉ Spec.session_keys).
  { unfold Spec.session_keys. intros H.
    repeat (apply elem_of_cons in H as [? | H]; [discriminate|]).
    by apply elem_of_nil in H. }
  destruct (handleLogout_frame b) as (Hgone & Hkept & _).
  split; [exact Hin|]. split; [exact Hout|].
  split; [exact (Hgone "token" Hin)|].
  exact (Hkept "theme" Hout).
Defined.

(** ** Text search *)

Lemma startsWith_spec (s p : string) :
  Js.startsWith s p = true ↔ ∃ post, s = p +:+ post.
Proof.
  revert s. induction p as [|a p IH]; intros s; simpl.
  - split; [intros _; by exists s | done].
  - destruct s as [|b s].
    + split; [done | intros [post Hpost]; discriminate].
    + rewrite andb_true_iff, IH. split.
      * intros [Hab [post ->]]. apply Ascii.eqb_eq in Hab as ->. by exists post.
      * intros [post Hpost]. injection Hpost as -> ->.
        split; [apply Ascii.eqb_refl | by exists post].
Qed.

Lemma includes_spec (s p : string) :
  Js.includes s p = true ↔ ∃ pre post, s = pre +:+ p +:+ post.
Proof.
  induction s as [|c s IH].
  - simpl. rewrite orb_false_r, startsWith_spec. split.
    + intros [post Hpost]. by exists "", post.
    + intros ([|? ?] & post & Hpost); [by exists post | discriminate].
  - cbn [Js.includes]. rewrite orb_true_iff, IH, startsWith_spec. split.
    + intros [[post Hpost] | (pre & post & ->)].
      * by exists "", post.
      * by exists (String c pre), post.
    + intros ([|c' pre] & post & Hpost).
      * left. by exists post.
      * right. injection Hpost as -> ->. by exists pre, post.
Qed.

(** The test of the search listener, whatever [toLowerCase] is. *)
Lemma includes_contains_nocase (toLowerCase : string → string) (text query : string) :
  Js.includes (toLowerCase text) (toLowerCase query) = true ↔
  Spec.contains_nocase toLowerCase text query.
Proof. apply includes_spec. Qed.

Lemma ascii_lower_app (a b : string) :
  Spec.ascii_lower (a +:+ b) = Spec.ascii_lower a +:+ Spec.ascii_lower b.
Proof. induction a as [|x a IH]; simpl; [done | by rewrite IH]. Qed.

(** A split of the lowered text comes from a split of the text. *)
Lemma ascii_lower_split (s a b : string) :
  Spec.ascii_lower s = a +:+ b →
  ∃ s1 s2, s = s1 +:+ s2 ∧ Spec.ascii_lower s1 = a ∧ Spec.ascii_lower s2 = b.
Proof.
  revert s. induction a as [|x a IH]; intros s Hs; simpl in Hs.
  - by exists "", s.
  - destruct s as [|c s]; [discriminate|]. simpl in Hs. injection Hs as Hc Hs.
    destruct (IH s Hs) as (s1 & s2 & -> & <- & <-).
    exists (String c s1), s2. simpl. by rewrite Hc.
Qed.

Lemma N_of_ascii_inj (c d : ascii) : N_of_ascii c = N_of_ascii d → c = d.
Proof.
  intros Heq. rewrite <- (ascii_N_embedding c), <- (ascii_N_embedding d).
  by rewrite Heq.
Qed.

Lemma is_capital_true (c : ascii) :
  Spec.is_capital c = true → (65 ≤ N_of_ascii c)%N ∧ (N_of_ascii c ≤ 90)%N.
Proof.
  unfold Spec.is_capital. intros H. apply andb_true_iff in H as [H1 H2].
  split; by apply N.leb_le.
Qed.

Lemma is_capital_false (c : ascii) :
  Spec.is_capital c = false → (N_of_ascii c < 65)%N ∨ (90 < N_of_ascii c)%N.
Proof.
  unfold Spec.is_capital. intros H. apply andb_false_iff in H as [H | H];
    [left | right]; by apply N.leb_gt.
Qed.

(** Two characters have the same lower case exactly when they are the same
    letter. *)
Lemma ascii_lower_char_eq (c d : ascii) :
  Spec.ascii_lower_char c = Spec.ascii_lower_char d ↔ Spec.same_letter c d.
Proof.
  unfold Spec.ascii_lower_char, Spec.same_letter.
  pose proof (N_ascii_bounded c) as Hc. pose proof (N_ascii_bounded d) as Hd.
  destruct (Spec.is_capital c) eqn:Hcc; destruct (Spec.is_capital d) eqn:Hdc.
  - apply is_capital_true in Hcc as [Hc1 Hc2].
    apply is_capital_true in Hdc as [Hd1 Hd2].
    assert (Hcb : (N_of_ascii c + 32 < 256)%N) by lia.
    assert (Hdb : (N_of_ascii d + 32 < 256)%N) by lia.
    split.
    + intros Heq. left. apply N_of_ascii_inj.
      apply (f_equal N_of_ascii) in Heq.
      rewrite (N_ascii_embedding _ Hcb), (N_ascii_embedding _ Hdb) in Heq. lia.
    + intros [-> | [[_ H] | [_ H]]]; [done | lia | lia].
  - apply is_capital_true in Hcc as [Hc1 Hc2].
    apply is_capital_false in Hdc.
    assert (Hcb : (N_of_ascii c + 32 < 256)%N) by lia.
    split.
    + intros Heq. right; left. split; [done|].
      apply (f_equal N_of_ascii) in Heq.
      rewrite (N_ascii_embedding _ Hcb) in Heq. lia.
    + intros [-> | [[_ H] | [H _]]]; [lia | | done].
      rewrite <- H. apply ascii_N_embedding.
  - apply is_capital_false in Hcc.
    apply is_capital_true in Hdc as [Hd1 Hd2].
    assert (Hdb : (N_of_ascii d + 32 < 256)%N) by lia.
    split.
    + intros Heq. right; right. split; [done|].
      apply (f_equal N_of_ascii) in Heq.
      rewrite (N_ascii_embedding _ Hdb) in Heq. lia.
    + intros [-> | [[H _] | [_ H]]]; [lia | done |].
      rewrite <- H. symmetry. apply ascii_N_embedding.
  - split; [by left|]. by intros [-> | [[H _] | [H _]]].
Qed.

Lemma ascii_lower_eq (s t : string) :
  Spec.ascii_lower s = Spec.ascii_lower t ↔ Spec.same_up_to_case s t.
Proof.
  revert t. induction s as [|c s IH]; intros [|d t]; simpl; try done.
  rewrite <- IH, <- ascii_lower_char_eq. split.
  - by intros [= -> ->].
  - by intros [-> ->].
Qed.

(** On ASCII lower-casing the test decides whether a stretch of the text
    agrees with the query letter by letter. *)
Lemma includes_ascii_lower (text query : string) :
  Js.includes (Spec.ascii_lower text) (Spec.ascii_lower query) = true ↔
  Spec.contains_up_to_case text query.
Proof.
  rewrite includes_spec. unfold Spec.contains_up_to_case. split.
  - intros (pre' & post' & Hsplit).
    apply ascii_lower_split in Hsplit as (pre & rest & -> & _ & Hrest).
    apply ascii_lower_split in Hrest as (mid & post & -> & Hmid & _).
    exists pre, mid, post. by rewrite <- ascii_lower_eq.
  - intros (pre & mid & post & -> & Hmid). apply ascii_lower_eq in Hmid.
    exists (Spec.ascii_lower pre), (Spec.ascii_lower post).
    by rewrite !ascii_lower_app, Hmid.
Qed.

(** C6: after a keystroke that leaves [value] in the search box, the table
    has the same rows in the same order, each with its text, badge and click
    target unchanged, and a row is visible exactly when its text contains
    [value] without regard to case: when the lower case of [value], as the
    runtime's [toLowerCase] gives it, is a stretch of the lower case of the
    text.  This holds for every text and query.  For text and query of
    ASCII characters, where [toLowerCase] shifts A-Z to a-z, it says that a
    stretch of the text agrees with [value] letter by letter, capital or
    small.  No request is made and nothing else in the state changes. *)
Theorem setupSearch_filters (toLowerCase : string → string) value b rows :
  recordsTable b = Some rows →
  let b' := Records.setupSearch_input toLowerCase value b in
  ∃ rows',
    b' = set_recordsTable (Some rows') b ∧
    fetches b' = fetches b ∧
    length rows' = length rows ∧
    ∀ i row, rows !! i = Some row →
      ∃ row', rows' !! i = Some row' ∧
        row_text row' = row_text row ∧
        row_badge row' = row_badge row ∧
        row_opens row' = row_opens row ∧
        (Spec.visible row' ↔
         Spec.contains_nocase toLowerCase (row_text row) value) ∧
        (Spec.agrees_on_ascii toLowerCase Spec.ascii_lower →
         Spec.ascii_text (row_text row) → Spec.ascii_text value →
         (Spec.visible row' ↔ Spec.contains_up_to_case (row_text row) value)).
Proof.
  intros Hrows. cbv zeta. unfold Records.setupSearch_input. rewrite Hrows.
  eexists. split; [reflexivity|]. split; [reflexivity|].
  split; [by rewrite length_fmap|].
  intros i row Hi. eexists. split.
  - rewrite list_lookup_fmap, Hi. reflexivity.
  - simpl. repeat (split; [reflexivity|]). unfold Spec.visible. simpl. split.
    + rewrite <- includes_contains_nocase. by destruct (Js.includes _ _).
    + intros Hagree Htext Hvalue.
      rewrite (Hagree _ Htext), (Hagree _ Hvalue), <- includes_ascii_lower.
      by destruct (Js.includes _ _).
Qed.

Lemma setupSearch_filters_witness :
  let rows := [mkRow "Jane Doe" "" None (Some 1%N);
               mkRow "John Smith" "" None (Some 2%N)] in
  let b := set_recordsTable (Some rows) Sample.page in
  recordsTable b = Some rows ∧
  Spec.agrees_on_ascii Spec.ascii_lower Spec.ascii_lower ∧
  Spec.ascii_text "Jane Doe" ∧ Spec.ascii_text "jane" ∧
  ∃ rows',
    Records.setupSearch_input Spec.ascii_lower "jane" b
      = set_recordsTable (Some rows') b ∧
    row_display <$> rows' = [""; "none"] ∧
    Spec.contains_up_to_case "Jane Doe" "jane".
Proof.
  intros rows b.
  assert (Hagree : Spec.agrees_on_ascii Spec.ascii_lower Spec.ascii_lower)
    by (intros s _; reflexivity).
  assert (Htext : Spec.ascii_text "Jane Doe") by (simpl; repeat split; reflexivity).
  assert (Hvalue : Spec.ascii_text "jane") by (simpl; repeat split; reflexivity).
  split; [reflexivity|]. split; [exact Hagree|].
  split; [exact Htext|]. split; [exact Hvalue|].
  destruct (setupSearch_filters Spec.ascii_lower "jane" b rows eq_refl)
    as (rows' & Hb' & _ & _ & Hrow).
  exists rows'. split; [exact Hb'|].
  destruct (Hrow 0%nat (mkRow "Jane Doe" "" None (Some 1%N)) eq_refl)
    as (row' & Hlookup & _ & _ & _ & _ & Hascii).
  apply (f_equal recordsTable) in Hb'. simpl in Hb'. injection Hb' as <-.
  split; [reflexivity|].
  injection Hlookup as <-.
  apply (Hascii Hagree Htext Hvalue). reflexivity.
Defined.

(** Without [#recordsTable] the listener finds no row and changes nothing. *)
Lemma setupSearch_no_table (toLowerCase : string → string) value b :
  recordsTable b = None → Records.setupSearch_input toLowerCase value b = b.
Proof. intros H. unfold Records.setupSearch_input. by rewrite H. Qed.

(** ** The records table *)

Section RecordsTable.

Context {Confidence Timestamp : Type}.
Variable toFixed1 : Confidence → string.
Variable toLocaleString : Timestamp → string.

Abbreviation ApiRecord := (Records.ApiRecord Confidence Timestamp).
Abbreviation recordRow := (Records.recordRow Confidence Timestamp toFixed1 toLocaleString).
Abbreviation displayRecords :=
  (Records.displayRecords Confidence Timestamp toFixed1 toLocaleString).
Abbreviation loadAllRecords :=
  (Records.loadAllRecords Confidence Timestamp toFixed1 toLocaleString).

(** Appending row after row builds the rows of the records in order. *)
Lemma forEach_appendChild (records : list ApiRecord) (tbody : list Row) :
  foldl (λ tbody record, tbody ++ [recordRow record]) tbody records =
  tbody ++ (recordRow <$> records).
Proof.
  revert tbody. induction records as [|record records IH]; intros tbody; simpl.
  - by rewrite app_nil_r.
  - rewrite IH. by rewrite <- app_assoc.
Qed.

(** C7: where the records table exists, [displayRecords] replaces its
    rows; for an empty list by exactly one row, the empty-state row, whose
    text carries the message "No records found"; for a non-empty list by
    the rows of the records, one for each and in their order.  No
    notification is raised in either case. *)
Theorem displayRecords_rows (records : list ApiRecord) b old :
  recordsTable b = Some old →
  let b' := displayRecords records b in
  alerts b' = alerts b ∧
  Js.includes (row_text Records.emptyStateRow) "No records found" = true ∧
  (records = [] → recordsTable b' = Some [Records.emptyStateRow]) ∧
  (records ≠ [] →
     recordsTable b' = Some (recordRow <$> records) ∧
     ∃ rows, recordsTable b' = Some rows ∧ length rows = length records ∧
       ∀ i record, records !! i = Some record →
         ∃ row, rows !! i = Some row ∧ row_opens row = Some (Records.id _ _ record)).
Proof.
  intros Htable. cbv zeta. unfold Records.displayRecords. rewrite Htable.
  split; [by case_decide|]. split; [reflexivity|]. split.
  - by intros ->.
  - intros Hne. rewrite decide_False by (by destruct records).
    rewrite forEach_appendChild. simpl. split; [reflexivity|].
    eexists. split; [reflexivity|]. split; [by rewrite length_fmap|].
    intros i record Hi. exists (recordRow record). split; [|reflexivity].
    by rewrite list_lookup_fmap, Hi.
Qed.

(** Without [#recordsTable], [displayRecords] does nothing. *)
Lemma displayRecords_no_table (records : list ApiRecord) b :
  recordsTable b = None → displayRecords records b = b.
Proof. intros H. unfold Records.displayRecords. by rewrite H. Qed.

(** An answer that is ok and readable is displayed; one that is not ok is
    dropped without a word, leaving the table as it was. *)
Lemma loadAllRecords_displays (records : list ApiRecord) b :
  recordsTable (loadAllRecords (Response true (Some records)) b) =
    recordsTable (displayRecords records b) ∧
  (∀ body, recordsTable (loadAllRecords (Response false body) b) = recordsTable b ∧
           alerts (loadAllRecords (Response false body) b) = alerts b).
Proof.
  split; [|done]. unfold Records.loadAllRecords, Records.displayRecords. simpl.
  destruct (recordsTable b); [by case_decide | done].
Qed.

End RecordsTable.

Lemma displayRecords_rows_witness :
  let b := set_recordsTable (Some []) Sample.page in
  recordsTable b = Some [] ∧
  recordsTable (Records.displayRecords string string id id [] b) =
    Some [Records.emptyStateRow] ∧
  (let record := Records.mkApiRecord string string 3 "Jane Doe" 34 "Female"
                   "Pneumonia" "Severe" "97.2" "1/2/2025, 10:00:00 AM" in
   recordsTable (Records.displayRecords string string id id [record] b) =
     Some [Records.recordRow string string id id record]).
Proof.
  intros b. split; [reflexivity|]. split.
  - destruct (displayRecords_rows id id [] b [] eq_refl) as (_ & _ & Hempty & _).
    exact (Hempty eq_refl).
  - intros record.
    destruct (displayRecords_rows id id [record] b [] eq_refl) as (_ & _ & _ & Hrows).
    apply Hrows. discriminate.
Defined.

(** The rows of two records, then the search for "jane": only the row of
    Jane Doe stays visible. *)
Example search_jane :
  let records :=
    [Records.mkApiRecord string string 1 "Jane Doe" 34 "Female" "Pneumonia" "Severe"
       "97.2" "1/2/2025, 10:00:00 AM";
     Records.mkApiRecord string string 2 "John Smith" 61 "Male" "Normal" "Mild"
       "88.0" "1/3/2025, 9:30:00 AM"] in
  let b := Records.displayRecords string string id id records
             (set_recordsTable (Some []) Sample.page) in
  match recordsTable (Records.setupSearch_input Spec.ascii_lower "jane" b) with
  | Some rows => map (λ row, (row_opens row, row_badge row, row_display row)) rows
  | None => []
  end =
  [(Some 1%N, Some "badge badge-danger", "");
   (Some 2%N, Some "badge badge-success", "none")].
Proof. reflexivity. Qed.

(** * Further properties of the scripts *)

(** ** File selection and submission *)

Lemma handleFileSelect_refused (f : File) b :
  Js.startsWith (file_type f) "image/" = false →
  Analysis.handleFileSelect (Some f) b =
  Common.showAlert "Please select an image file" "error" b.
Proof. intros Htype. unfold Analysis.handleFileSelect. by rewrite Htype. Qed.

(** A file whose MIME type does not start with "image/" is refused:
    the selection stays as it was and the only effect is the warning. *)
Theorem handleFileSelect_rejects_non_image (f : File) b :
  Js.startsWith (file_type f) "image/" = false →
  let b' := Analysis.handleFileSelect (Some f) b in
  selectedFile b' = selectedFile b ∧
  alerts b' = alerts b ++ [mkAlert "Please select an image file" "error"] ∧
  fetches b' = fetches b ∧
  localStorage b' = localStorage b ∧
  results b' = results b.
Proof. intros Htype. cbv zeta. by rewrite handleFileSelect_refused. Qed.

Lemma handleFileSelect_rejects_non_image_witness :
  let f := mkFile "notes.pdf" "application/pdf" in
  Js.startsWith (file_type f) "image/" = false ∧
  selectedFile (Analysis.handleFileSelect (Some f) Sample.analysis_page) =
    Some Sample.xray.
Proof.
  intros f. split; [reflexivity|].
  exact (proj1 (handleFileSelect_rejects_non_image f Sample.analysis_page eq_refl)).
Defined.

Lemma handleFileSelect_accepts_image (f : File) b :
  Js.startsWith (file_type f) "image/" = true →
  selectedFile (Analysis.handleFileSelect (Some f) b) = Some f ∧
  fetches (Analysis.handleFileSelect (Some f) b) = fetches b ∧
  alerts (Analysis.handleFileSelect (Some f) b) = alerts b ∧
  localStorage (Analysis.handleFileSelect (Some f) b) = localStorage b.
Proof. intros Htype. unfold Analysis.handleFileSelect. by rewrite Htype. Qed.

(** X1: the image of a submission is the last file that was accepted: an
    image chosen after another replaces it, and a refused file or a
    cancelled dialog in between does not. *)
Theorem handleAnalyze_sends_last_image (first img other : File) form net b :
  Js.startsWith (file_type first) "image/" = true →
  Js.startsWith (file_type img) "image/" = true →
  Js.startsWith (file_type other) "image/" = false →
  let b' := Analysis.handleFileSelect None
              (Analysis.handleFileSelect (Some other)
                 (Analysis.handleFileSelect (Some img)
                    (Analysis.handleFileSelect (Some first) b))) in
  ∃ req formData,
    fetches (Analysis.handleAnalyze form net b') = fetches b ++ [req] ∧
    req_body req = FormDataBody formData ∧
    Spec.getAll "image" formData = [FvFile img].
Proof.
  intros Hfirst Himg Hother. cbv zeta.
  set (b1 := Analysis.handleFileSelect (Some first) b).
  set (b2 := Analysis.handleFileSelect (Some img) b1).
  set (b3 := Analysis.handleFileSelect (Some other) b2).
  destruct (handleFileSelect_accepts_image first b Hfirst) as (_ & Hf1 & _).
  destruct (handleFileSelect_accepts_image img b1 Himg) as (Hs2 & Hf2 & _).
  assert (Hs3 : selectedFile b3 = selectedFile b2)
    by (unfold b3; by rewrite handleFileSelect_refused).
  assert (Hf3 : fetches b3 = fetches b2)
    by (unfold b3; by rewrite handleFileSelect_refused).
  fold b1 in Hf1. fold b2 in Hs2, Hf2. simpl.
  assert (Hsel : selectedFile b3 = Some img) by (by rewrite Hs3).
  eexists _, _. split.
  - rewrite (handleAnalyze_fetches form net b3 img Hsel). by rewrite Hf3, Hf2, Hf1.
  - split; [reflexivity|]. unfold Analysis.prepare_formData.
    rewrite !getAll_append_if_value.
    repeat (rewrite decide_False by (intros [? ?]; done)). reflexivity.
Qed.

Lemma handleAnalyze_sends_last_image_witness :
  let first := mkFile "old.jpg" "image/jpeg" in
  let other := mkFile "notes.pdf" "application/pdf" in
  Js.startsWith (file_type first) "image/" = true ∧
  Js.startsWith (file_type Sample.xray) "image/" = true ∧
  Js.startsWith (file_type other) "image/" = false ∧
  ∃ req formData,
    fetches (Analysis.handleAnalyze Sample.bare_form FetchRejects
               (Analysis.handleFileSelect None
                  (Analysis.handleFileSelect (Some other)
                     (Analysis.handleFileSelect (Some Sample.xray)
                        (Analysis.handleFileSelect (Some first) Sample.page)))))
      = fetches Sample.page ++ [req] ∧
    req_body req = FormDataBody formData ∧
    Spec.getAll "image" formData = [FvFile Sample.xray].
Proof.
  intros first other. repeat (split; [reflexivity|]).
  exact (handleAnalyze_sends_last_image first Sample.xray other Sample.bare_form
           FetchRejects Sample.page eq_refl eq_refl eq_refl).
Defined.

(** Once the image is removed a submission is blocked: whatever the
    form holds, nothing is requested, nothing is rendered, and the only
    effect is the warning. *)
Theorem removeImage_blocks_submission form net b :
  let b' := Analysis.handleAnalyze form net (Analysis.removeImage b) in
  fetches b' = fetches b ∧
  alerts b' = alerts b ++ [mkAlert "Please upload an X-ray image first" "error"] ∧
  results b' = results b ∧
  localStorage b' = localStorage b ∧
  selectedFile b' = None.
Proof. done. Qed.

(** X2: the keys of a submission.  The six fixed fields come first, each
    once and in the order of the script, followed by the vital signs that
    have a value, in their order; no key occurs twice, and the request is a
    POST whose only header is [Authorization]. *)
Theorem handleAnalyze_keys form net b file :
  selectedFile b = Some file →
  ∃ req formData,
    fetches (Analysis.handleAnalyze form net b) = fetches b ++ [req] ∧
    req_body req = FormDataBody formData ∧
    req_method req = "POST" ∧
    req_url req = API_URL +:+ "/api/analyze" ∧
    (req_headers req).*1 = ["Authorization"] ∧
    formData.*1 =
      ["image"; "patient_name"; "patient_age"; "patient_gender"; "symptoms";
       "medical_history"] ++ (filter (λ kv, kv.2 ≠ "") (Spec.vital_signs form)).*1 ∧
    NoDup formData.*1.
Proof.
  intros Hfile. eexists _, _. split; [by apply handleAnalyze_fetches|].
  repeat (split; [reflexivity|]).
  unfold Analysis.prepare_formData, Analysis.append_if_value, Spec.vital_signs, Js.truthy.
  destruct form as [? ? ? ? ? t o h r]. simpl.
  destruct t, o, h, r; simpl; (split; [reflexivity|]);
    apply (bool_decide_unpack _); vm_compute; exact I.
Qed.

Lemma handleAnalyze_keys_witness :
  selectedFile Sample.analysis_page = Some Sample.xray ∧
  ∃ req formData,
    fetches (Analysis.handleAnalyze Sample.full_form FetchRejects Sample.analysis_page)
      = fetches Sample.analysis_page ++ [req] ∧
    req_body req = FormDataBody formData ∧
    formData.*1 =
      ["image"; "patient_name"; "patient_age"; "patient_gender"; "symptoms";
       "medical_history"; "temperature"; "heart_rate"].
Proof.
  split; [reflexivity|].
  destruct (handleAnalyze_keys Sample.full_form FetchRejects Sample.analysis_page
              Sample.xray eq_refl)
    as (req & formData & Hfetch & Hbody & _ & _ & _ & Hkeys & _).
  exists req, formData. split; [exact Hfetch|]. split; [exact Hbody|]. exact Hkeys.
Defined.

(** X3: the symptoms field of a submission is never the empty string. *)
Theorem handleAnalyze_symptoms_not_empty form net b file :
  selectedFile b = Some file →
  ∃ req formData value,
    fetches (Analysis.handleAnalyze form net b) = fetches b ++ [req] ∧
    req_body req = FormDataBody formData ∧
    Spec.getAll "symptoms" formData = [FvString value] ∧
    value ≠ "".
Proof.
  intros Hfile. eexists _, _, _. split; [by apply handleAnalyze_fetches|].
  split; [reflexivity|]. split; [apply getAll_symptoms|].
  unfold Js.or.
  by destruct (String.eqb_spec (Js.join ", " (Analysis.checked_symptoms form)) "").
Qed.

Lemma handleAnalyze_symptoms_not_empty_witness :
  selectedFile Sample.analysis_page = Some Sample.xray ∧
  ∃ req formData value,
    fetches (Analysis.handleAnalyze Sample.bare_form FetchRejects Sample.analysis_page)
      = fetches Sample.analysis_page ++ [req] ∧
    req_body req = FormDataBody formData ∧
    Spec.getAll "symptoms" formData = [FvString value] ∧
    value ≠ "".
Proof.
  split; [reflexivity|].
  exact (handleAnalyze_symptoms_not_empty Sample.bare_form FetchRejects
           Sample.analysis_page Sample.xray eq_refl).
Defined.

(** X4: what the answer to a submission does.  On a page with the results
    area, an ok answer that has its confidence, its affected regions and its
    recommendations is rendered, with the colour of its severity, and
    announced; an ok answer that lacks one of the three makes the template
    throw, so that nothing is rendered, no success is announced and the
    network error is shown.  On a page without the results area an ok answer
    is announced and nothing is rendered.  A refused answer leaves the
    results as they were and shows its non-empty detail, else the generic
    text; an answer that cannot be read, or none, shows the network error.
    In every case the file stays selected and the storage is not written. *)
Theorem handleAnalyze_outcomes form data net b file :
  selectedFile b = Some file →
  (∀ old c regions recs,
     results b = Some old →
     Analysis.confidence data = Some c →
     Analysis.affected_regions data = Some regions →
     Analysis.recommendations data = Some recs →
     let b' := Analysis.handleAnalyze form (Response true (Some data)) b in
     results b' =
       Some (Some (mkResultsView
                     (Js.to_string (Analysis.disease data))
                     (Js.to_string (Analysis.severity data))
                     (Analysis.severityColor (Js.to_string (Analysis.severity data)))
                     c regions recs
                     (Js.to_string (pretty <$> Analysis.analysis_id data)))) ∧
     alerts b' = alerts b ++ [mkAlert "Analysis completed successfully!" "success"]) ∧
  (∀ old,
     results b = Some old →
     Analysis.confidence data = None ∨ Analysis.affected_regions data = None ∨
       Analysis.recommendations data = None →
     let b' := Analysis.handleAnalyze form (Response true (Some data)) b in
     results b' = results b ∧
     alerts b' = alerts b ++
       [mkAlert "Network error. Please check your connection." "error"]) ∧
  (results b = None →
     let b' := Analysis.handleAnalyze form (Response true (Some data)) b in
     results b' = None ∧
     alerts b' = alerts b ++ [mkAlert "Analysis completed successfully!" "success"]) ∧
  (let b' := Analysis.handleAnalyze form (Response false (Some data)) b in
   results b' = results b ∧
   ∃ shown,
     alerts b' = alerts b ++ [mkAlert shown "error"] ∧
     (∀ message, Analysis.detail data = Some message → message ≠ "" → shown = message) ∧
     (Analysis.detail data = None ∨ Analysis.detail data = Some "" →
      shown = "Analysis failed. Please try again.")) ∧
  (∀ ok, let b' := Analysis.handleAnalyze form (Response ok None) b in
   results b' = results b ∧
   alerts b' = alerts b ++
     [mkAlert "Network error. Please check your connection." "error"]) ∧
  (let b' := Analysis.handleAnalyze form FetchRejects b in
   results b' = results b ∧
   alerts b' = alerts b ++
     [mkAlert "Network error. Please check your connection." "error"]) ∧
  selectedFile (Analysis.handleAnalyze form net b) = Some file ∧
  localStorage (Analysis.handleAnalyze form net b) = localStorage b.
Proof.
  intros Hfile. unfold Analysis.handleAnalyze. rewrite Hfile. cbv zeta.
  split; [|split; [|split; [|split; [|split; [by intros []|split; [done|]]]]]].
  - intros old c regions recs Hold Hc Hregions Hrecs.
    unfold Analysis.displayResults. simpl. by rewrite Hold, Hc, Hregions, Hrecs.
  - intros old Hold Hmissing. unfold Analysis.displayResults. simpl. rewrite Hold.
    destruct Hmissing as [-> | [-> | ->]]; [done | |].
    + by destruct (Analysis.confidence data).
    + by destruct (Analysis.confidence data), (Analysis.affected_regions data).
  - intros Hnone. unfold Analysis.displayResults. simpl. by rewrite Hnone.
  - split; [done|]. eexists. split; [reflexivity|]. unfold Js.or. split.
    + intros message -> Hne. by destruct (String.eqb_spec message "").
    + by intros [-> | ->].
  - destruct net as [|[] [d|]]; simpl; rewrite ?Hfile; try done.
    pose proof (displayResults_frame d
                  (fetch (Analysis.handleAnalyze_request file form b) b)) as Hframe.
    destruct (Analysis.displayResults d _) as [b'|]; simpl; [|by rewrite Hfile].
    destruct Hframe as (_ & _ & Hstorage & Hselected).
    by rewrite Hstorage, Hselected.
Qed.

Lemma handleAnalyze_outcomes_witness :
  let b := set_results (Some None) Sample.analysis_page in
  let data := Analysis.mkAnalyzeBody (Some 42%N) (Some "Pneumonia") (Some "Mild")
                (Some (mkJsonNumber "87.25")) (Some ["Right lower lobe"])
                (Some ["Rest"; "Antibiotics"]) None in
  let partial := Analysis.mkAnalyzeBody (Some 42%N) (Some "Pneumonia") (Some "Mild")
                   (Some (mkJsonNumber "87.25")) None (Some ["Rest"]) None in
  selectedFile b = Some Sample.xray ∧
  results b = Some None ∧
  results (Analysis.handleAnalyze Sample.full_form (Response true (Some data)) b)
    = Some (Some (mkResultsView "Pneumonia" "Mild" "var(--secondary)"
                    (mkJsonNumber "87.25") ["Right lower lobe"]
                    ["Rest"; "Antibiotics"] "42")) ∧
  alerts (Analysis.handleAnalyze Sample.full_form (Response true (Some partial)) b)
    = [mkAlert "Network error. Please check your connection." "error"].
Proof.
  intros b data partial. split; [reflexivity|]. split; [reflexivity|]. split.
  - destruct (handleAnalyze_outcomes Sample.full_form data FetchRejects b
                Sample.xray eq_refl) as (Hok & _).
    exact (proj1 (Hok None _ _ _ eq_refl eq_refl eq_refl eq_refl)).
  - destruct (handleAnalyze_outcomes Sample.full_form partial FetchRejects b
                Sample.xray eq_refl) as (_ & Hthrow & _).
    exact (proj2 (Hthrow None eq_refl (or_intror (or_introl eq_refl)))).
Defined.

(** ** Registration and the session *)

(** X5: every login attempt sends exactly one request, a POST of the
    e-mail and the password as JSON; when the network call fails or the
    body of the answer cannot be read, whatever its status, nothing is
    stored or scheduled and the network error is shown. *)
Theorem handleLogin_network_failure form net b :
  fetches (Auth.handleLogin form net b) =
    fetches b ++ [mkRequest (API_URL +:+ "/api/auth/login") "POST"
                    [("Content-Type", "application/json")]
                    (JsonBody [("email", Auth.email form);
                               ("password", Auth.password form)])] ∧
  ((net = FetchRejects ∨ ∃ ok, net = Response ok None) →
   localStorage (Auth.handleLogin form net b) = localStorage b ∧
   timers (Auth.handleLogin form net b) = timers b ∧
   href (Auth.handleLogin form net b) = href b ∧
   alerts (Auth.handleLogin form net b) =
     alerts b ++ [mkAlert "Network error. Please check your connection." "error"]).
Proof.
  split.
  - destruct net as [|[] [d|]]; reflexivity.
  - intros [-> | [ok ->]]; done.
Qed.

Lemma handleLogin_network_failure_witness :
  alerts (Auth.handleLogin (Auth.mkLoginForm "grey@example.org" "correct horse")
            (Response true None) Sample.page)
    = [mkAlert "Network error. Please check your connection." "error"].
Proof.
  destruct (handleLogin_network_failure
              (Auth.mkLoginForm "grey@example.org" "correct horse")
              (Response true None) Sample.page) as (_ & Hfail).
  destruct (Hfail (or_intror (ex_intro _ true eq_refl))) as (_ & _ & _ & Halerts).
  exact Halerts.
Defined.

(** X6: a registration whose password has fewer than eight characters
    never reaches the network: nothing is requested, stored or scheduled,
    and the only effect is the message. *)
Theorem handleRegister_short_password form net b :
  (String.length (Auth.reg_password form) < 8)%nat →
  let b' := Auth.handleRegister form net b in
  fetches b' = fetches b ∧
  localStorage b' = localStorage b ∧
  timers b' = timers b ∧
  href b' = href b ∧
  alerts b' = alerts b ++
    [mkAlert "Password must be at least 8 characters long" "error"].
Proof.
  intros Hshort. cbv zeta. unfold Auth.handleRegister.
  apply Nat.ltb_lt in Hshort. by rewrite Hshort.
Qed.

Lemma handleRegister_short_password_witness :
  let form := Auth.mkRegisterForm "Dr. Grey" "grey@example.org" "secret7"
                "Radiology" "LIC-1" in
  (String.length (Auth.reg_password form) < 8)%nat ∧
  fetches (Auth.handleRegister form
             (Response true (Some (Auth.mkLoginBody (Some "t") (Some "n") (Some 1%N) None)))
             Sample.page) = [].
Proof.
  intros form.
  assert (Hshort : (String.length (Auth.reg_password form) < 8)%nat) by (simpl; lia).
  split; [exact Hshort|].
  exact (proj1 (handleRegister_short_password form _ Sample.page Hshort)).
Defined.

(** X7: a registration whose password has eight characters or more sends
    exactly one request, a POST of the five fields to [/api/auth/register].
    An ok answer stores the session and schedules the redirection to the
    dashboard; a refused one stores and schedules nothing and shows its
    non-empty detail, else the generic text. *)
Theorem handleRegister_outcomes form data net b :
  (8 ≤ String.length (Auth.reg_password form))%nat →
  fetches (Auth.handleRegister form net b) =
    fetches b ++ [mkRequest (API_URL +:+ "/api/auth/register") "POST"
                    [("Content-Type", "application/json")]
                    (JsonBody [("name", Auth.reg_name form);
                               ("email", Auth.reg_email form);
                               ("password", Auth.reg_password form);
                               ("specialty", Auth.reg_specialty form);
                               ("license_number", Auth.reg_license_number form)])] ∧
  (let b' := Auth.handleRegister form (Response true (Some data)) b in
   getItem "token" b' = Some (Js.to_string (Auth.access_token data)) ∧
   getItem "doctorName" b' = Some (Js.to_string (Auth.doctor_name data)) ∧
   getItem "doctorId" b' = Some (Js.to_string (pretty <$> Auth.doctor_id data)) ∧
   timers b' = timers b ++ [mkTimer 1000 "dashboard.html"]) ∧
  (let b' := Auth.handleRegister form (Response false (Some data)) b in
   localStorage b' = localStorage b ∧
   timers b' = timers b ∧
   ∃ shown,
     alerts b' = alerts b ++ [mkAlert shown "error"] ∧
     (∀ message, Auth.detail data = Some message → message ≠ "" → shown = message) ∧
     (Auth.detail data = None ∨ Auth.detail data = Some "" →
      shown = "Registration failed. Please try again.")).
Proof.
  intros Hlong. unfold Auth.handleRegister.
  assert (Hltb : (String.length (Auth.reg_password form) <? 8)%nat = false)
    by (apply Nat.ltb_ge; lia).
  rewrite Hltb. cbv zeta. split; [|split].
  - destruct net as [|[] [d|]]; reflexivity.
  - unfold getItem. simpl. split; [|split; [|split; [|reflexivity]]].
    + rewrite lookup_insert_ne by done. rewrite lookup_insert_ne by done.
      by rewrite lookup_insert_eq.
    + rewrite lookup_insert_ne by done. by rewrite lookup_insert_eq.
    + by rewrite lookup_insert_eq.
  - simpl. repeat (split; [reflexivity|]).
    eexists. split; [reflexivity|]. unfold Js.or. split.
    + intros message -> Hne. by destruct (String.eqb_spec message "").
    + by intros [-> | ->].
Qed.

Lemma handleRegister_outcomes_witness :
  let form := Auth.mkRegisterForm "Dr. Grey" "grey@example.org" "secret78"
                "Radiology" "LIC-1" in
  let data := Auth.mkLoginBody (Some "t0k3n") (Some "Dr. Grey") (Some 7%N) None in
  (8 ≤ String.length (Auth.reg_password form))%nat ∧
  getItem "token" (Auth.handleRegister form (Response true (Some data)) Sample.page)
    = Some "t0k3n".
Proof.
  intros form data.
  assert (Hlong : (8 ≤ String.length (Auth.reg_password form))%nat) by (simpl; lia).
  split; [exact Hlong|].
  destruct (handleRegister_outcomes form data FetchRejects Sample.page Hlong)
    as (_ & (Htoken & _) & _).
  exact Htoken.
Defined.

Lemma checkAuth_accepts b token :
  getItem "token" b = Some token → token ≠ "" →
  Common.checkAuth b = (Some token, b).
Proof.
  intros Htoken Hne. unfold Common.checkAuth, Js.truthy. rewrite Htoken.
  by destruct (String.eqb_spec token "").
Qed.

Lemma checkAuth_refuses b :
  getItem "token" b = None ∨ getItem "token" b = Some "" →
  Common.checkAuth b = (None, set_href "index.html" b).
Proof. unfold Common.checkAuth, Js.truthy. by intros [-> | ->]. Qed.

(** X8: [checkAuth] lets a page go on exactly when a non-empty token is
    stored; it then returns that token and changes nothing.  Otherwise it
    returns [false] and its only effect is to send the page to
    [index.html]. *)
Theorem checkAuth_spec b :
  (∀ token, getItem "token" b = Some token → token ≠ "" →
     Common.checkAuth b = (Some token, b)) ∧
  (getItem "token" b = None ∨ getItem "token" b = Some "" →
     Common.checkAuth b = (None, set_href "index.html" b)) ∧
  localStorage (Common.checkAuth b).2 = localStorage b ∧
  fetches (Common.checkAuth b).2 = fetches b ∧
  alerts (Common.checkAuth b).2 = alerts b.
Proof.
  split; [apply checkAuth_accepts|]. split; [apply checkAuth_refuses|].
  unfold Common.checkAuth, Js.truthy.
  destruct (getItem "token" b) as [token|]; [|done].
  by destruct (String.eqb token "").
Qed.

Lemma checkAuth_spec_witness :
  Common.checkAuth (setItem "token" "t0k3n" Sample.page)
    = (Some "t0k3n", setItem "token" "t0k3n" Sample.page) ∧
  href (Common.checkAuth Sample.page).2 = "index.html".
Proof.
  split.
  - apply (proj1 (checkAuth_spec (setItem "token" "t0k3n" Sample.page)));
      [reflexivity | discriminate].
  - rewrite (proj1 (proj2 (checkAuth_spec Sample.page)) (or_introl eq_refl)).
    reflexivity.
Defined.

(** X9: the life of a session.  After a login answered with a non-empty
    token, [checkAuth] hands out that token without redirecting, requests
    carry it as bearer, and the login page sends the visitor on to the
    dashboard; after the logout that follows, [checkAuth] refuses and
    redirects to [index.html], requests would carry "Bearer null", and the
    login page stays where it is. *)
Theorem session_round_trip form data token b :
  Auth.access_token data = Some token →
  token ≠ "" →
  let b1 := Auth.handleLogin form (Response true (Some data)) b in
  let b2 := Common.handleLogout b1 in
  Common.checkAuth b1 = (Some token, b1) ∧
  Common.bearer b1 = "Bearer " +:+ token ∧
  href (Auth.DOMContentLoaded b1) = "dashboard.html" ∧
  (Common.checkAuth b2).1 = None ∧
  href (Common.checkAuth b2).2 = "index.html" ∧
  Common.bearer b2 = "Bearer null" ∧
  href (Auth.DOMContentLoaded b2) = "index.html".
Proof.
  intros Htoken Hne b1 b2.
  assert (H1 : getItem "token" b1 = Some token).
  { unfold b1, Auth.handleLogin, getItem. simpl. rewrite Htoken. simpl.
    rewrite lookup_insert_ne by done. rewrite lookup_insert_ne by done.
    by rewrite lookup_insert_eq. }
  assert (H2 : getItem "token" b2 = None).
  { unfold b2, Common.handleLogout, getItem. simpl.
    rewrite !lookup_delete_ne by done. by rewrite lookup_delete_eq. }
  assert (Htruthy : Js.truthy (Some token) = true).
  { unfold Js.truthy. by destruct (String.eqb_spec token ""). }
  split; [by apply checkAuth_accepts|]. split; [by apply bearer_token|].
  split.
  { unfold Auth.DOMContentLoaded. cbv zeta.
    replace (getItem "token" (Common.initTheme b1)) with (Some token) by done.
    by rewrite Htruthy. }
  rewrite (checkAuth_refuses b2 (or_introl H2)).
  split; [done|]. split; [done|]. split.
  - unfold Common.bearer. by rewrite H2.
  - unfold Auth.DOMContentLoaded. cbv zeta.
    replace (getItem "token" (Common.initTheme b2)) with (@None string) by done.
    reflexivity.
Qed.

Lemma session_round_trip_witness :
  let data := Auth.mkLoginBody (Some "t0k3n") (Some "Dr. Grey") (Some 7%N) None in
  let form := Auth.mkLoginForm "grey@example.org" "correct horse" in
  let b1 := Auth.handleLogin form (Response true (Some data)) Sample.page in
  Common.checkAuth b1 = (Some "t0k3n", b1) ∧
  (Common.checkAuth (Common.handleLogout b1)).1 = None.
Proof.
  intros data form b1.
  assert (Hne : "t0k3n" ≠ "") by discriminate.
  destruct (session_round_trip form data "t0k3n" Sample.page eq_refl Hne)
    as (Hin & _ & _ & Hout & _).
  split; [exact Hin | exact Hout].
Defined.

(** X10: an ok answer to a login that lacks [access_token] still opens a
    session: the text "undefined" is stored as the token, [checkAuth]
    accepts it, and requests carry "Bearer undefined". *)
Theorem handleLogin_missing_token form data b :
  Auth.access_token data = None →
  let b' := Auth.handleLogin form (Response true (Some data)) b in
  getItem "token" b' = Some "undefined" ∧
  Common.checkAuth b' = (Some "undefined", b') ∧
  Common.bearer b' = "Bearer undefined" ∧
  timers b' = timers b ++ [mkTimer 1000 "dashboard.html"].
Proof.
  intros Hnone b'.
  assert (H1 : getItem "token" b' = Some "undefined").
  { unfold b', Auth.handleLogin, getItem. simpl. rewrite Hnone. simpl.
    rewrite lookup_insert_ne by done. rewrite lookup_insert_ne by done.
    by rewrite lookup_insert_eq. }
  split; [exact H1|]. split; [by apply checkAuth_accepts|].
  split; [by apply bearer_token|]. reflexivity.
Qed.

Lemma handleLogin_missing_token_witness :
  let data := Auth.mkLoginBody None (Some "Dr. Grey") (Some 7%N) None in
  getItem "token"
    (Auth.handleLogin (Auth.mkLoginForm "grey@example.org" "correct horse")
       (Response true (Some data)) Sample.page) = Some "undefined".
Proof.
  intros data.
  exact (proj1 (handleLogin_missing_token
                  (Auth.mkLoginForm "grey@example.org" "correct horse")
                  data Sample.page eq_refl)).
Defined.

(** ** Pages that need a session *)

Section Pages.

Context {Confidence Timestamp : Type}.
Variable toFixed1 : Confidence → string.
Variable toLocaleString : Timestamp → string.

Abbreviation Record_ := (Records.ApiRecord Confidence Timestamp).
Abbreviation initRecordsPage :=
  (Records.initRecordsPage Confidence Timestamp toFixed1 toLocaleString).
Abbreviation loadAllRecords' :=
  (Records.loadAllRecords Confidence Timestamp toFixed1 toLocaleString).
Abbreviation displayRecords' :=
  (Records.displayRecords Confidence Timestamp toFixed1 toLocaleString).
Abbreviation initDashboard :=
  (Dashboard.initDashboard Confidence Timestamp toFixed1 toLocaleString).
Abbreviation loadRecentAnalyses :=
  (Dashboard.loadRecentAnalyses Confidence Timestamp toFixed1 toLocaleString).
Abbreviation recentRow :=
  (Dashboard.recentRow Confidence Timestamp toFixed1 toLocaleString).

(** X11: the records page does not wait for [checkAuth]: without a token
    it is sent to [index.html] and still asks for the records, with
    "Bearer null" as authorization. *)
Theorem initRecordsPage_without_token (net : FetchOutcome (list Record_)) b :
  getItem "token" b = None →
  let b' := initRecordsPage net b in
  href b' = "index.html" ∧
  fetches b' =
    fetches b ++ [mkRequest (API_URL +:+ "/api/records") "GET"
                    [("Authorization", "Bearer null");
                     ("Content-Type", "application/json")] NoBody].
Proof.
  intros Hnone. cbv zeta. unfold Records.initRecordsPage.
  rewrite (checkAuth_refuses b (or_introl Hnone)). simpl.
  unfold Records.loadAllRecords, Records.getAuthHeaders, Common.bearer, getItem in *.
  simpl. rewrite Hnone. simpl.
  destruct net as [|[] [records|]]; simpl; try done.
  unfold Records.displayRecords. simpl.
  destruct (recordsTable b); [by case_decide | done].
Qed.

(** X12: the dashboard does wait: without a token it is sent to
    [index.html] and asks for nothing; with one it asks for the statistics
    and then for the records, and goes nowhere. *)
Theorem initDashboard_requests (net : FetchOutcome (list Record_)) b tbody :
  (getItem "token" b = None ∨ getItem "token" b = Some "" →
   initDashboard net b tbody = (set_href "index.html" b, tbody)) ∧
  (∀ token, getItem "token" b = Some token → token ≠ "" →
   let b' := (initDashboard net b tbody).1 in
   href b' = href b ∧
   alerts b' = alerts b ∧
   req_url <$> fetches b' =
     (req_url <$> fetches b) ++ [API_URL +:+ "/api/stats"; API_URL +:+ "/api/records"] ∧
   ∀ req, req ∈ drop (length (fetches b)) (fetches b') →
     req_headers req = [("Authorization", "Bearer " +:+ token);
                        ("Content-Type", "application/json")]).
Proof.
  unfold Dashboard.initDashboard. split.
  - intros Hnone. by rewrite (checkAuth_refuses b Hnone).
  - intros token Htoken Hne. rewrite (checkAuth_accepts b token Htoken Hne). cbv zeta.
    assert (Hb : Common.bearer b = "Bearer " +:+ token) by (by apply bearer_token).
    assert (Hfetch : fetches (loadRecentAnalyses net (Dashboard.loadStatistics b) tbody).1
              = fetches b ++
                [mkRequest (API_URL +:+ "/api/stats") "GET"
                   [("Authorization", "Bearer " +:+ token);
                    ("Content-Type", "application/json")] NoBody;
                 mkRequest (API_URL +:+ "/api/records") "GET"
                   [("Authorization", "Bearer " +:+ token);
                    ("Content-Type", "application/json")] NoBody]).
    { unfold Dashboard.loadRecentAnalyses, Dashboard.loadStatistics,
        Records.getAuthHeaders.
      replace (Common.bearer (fetch _ b)) with (Common.bearer b) by done.
      rewrite Hb.
      destruct net as [|[] [records|]]; simpl; by rewrite <- app_assoc. }
    split; [by destruct net as [|[] [records|]]|].
    split; [by destruct net as [|[] [records|]]|].
    rewrite Hfetch. split.
    + by rewrite fmap_app.
    + intros req. rewrite drop_app_length.
      intros Hin. repeat (apply elem_of_cons in Hin as [-> | Hin]); try done.
      by apply elem_of_nil in Hin.
Qed.

(** X13: what an answer to the request for the records does.  One that is
    not ok is dropped without a word: table and notifications stay as they
    were.  A failed call, or an ok answer that cannot be read, shows the
    notification and leaves the table.  Only an ok, readable answer changes
    the table. *)
Theorem loadAllRecords_failures (net : FetchOutcome (list Record_)) b :
  length (fetches (loadAllRecords' net b)) = S (length (fetches b)) ∧
  (∀ body, net = Response false body →
     recordsTable (loadAllRecords' net b) = recordsTable b ∧
     alerts (loadAllRecords' net b) = alerts b) ∧
  (net = FetchRejects ∨ net = Response true None →
     recordsTable (loadAllRecords' net b) = recordsTable b ∧
     alerts (loadAllRecords' net b) =
       alerts b ++ [mkAlert "Failed to load records" "error"]) ∧
  (∀ records, net = Response true (Some records) →
     alerts (loadAllRecords' net b) = alerts b ∧
     recordsTable (loadAllRecords' net b) = recordsTable (displayRecords' records b)).
Proof.
  assert (Hdisp : ∀ records b0,
            fetches (displayRecords' records b0) = fetches b0 ∧
            alerts (displayRecords' records b0) = alerts b0).
  { intros records b0. unfold Records.displayRecords.
    destruct (recordsTable b0); [by case_decide | done]. }
  split; [|split; [|split]].
  - unfold Records.loadAllRecords.
    destruct net as [|[] [records|]]; simpl; rewrite ?(proj1 (Hdisp _ _)); simpl;
      rewrite length_app; simpl; lia.
  - by intros body ->.
  - by intros [-> | ->].
  - intros records ->. unfold Records.loadAllRecords. cbv zeta.
    rewrite (proj2 (Hdisp _ _)). split; [done|].
    unfold Records.displayRecords. simpl.
    destruct (recordsTable b); [by case_decide | done].
Qed.

(** X14: [displayRecords] replaces the rows: what the table held before
    does not show in the result, and displaying the same list again changes
    nothing. *)
Theorem displayRecords_replaces (records : list Record_) b old1 old2 :
  recordsTable b = Some old1 →
  displayRecords' records (set_recordsTable (Some old2) b) = displayRecords' records b ∧
  displayRecords' records (displayRecords' records b) = displayRecords' records b.
Proof.
  intros Htable. unfold Records.displayRecords. rewrite Htable. simpl.
  split; case_decide; simpl; try done; by rewrite decide_False.
Qed.

End Pages.

Lemma initRecordsPage_without_token_witness :
  getItem "token" Sample.page = None ∧
  href (Records.initRecordsPage string string id id FetchRejects Sample.page)
    = "index.html" ∧
  length (fetches (Records.initRecordsPage string string id id FetchRejects Sample.page))
    = 1.
Proof.
  split; [reflexivity|].
  destruct (initRecordsPage_without_token id id FetchRejects Sample.page eq_refl)
    as (Hhref & Hfetch).
  split; [exact Hhref|]. rewrite Hfetch. reflexivity.
Defined.

Lemma displayRecords_replaces_witness :
  let record := Records.mkApiRecord string string 3 "Jane Doe" 34 "Female"
                  "Pneumonia" "Severe" "97.2" "1/2/2025, 10:00:00 AM" in
  let b := set_recordsTable (Some [Records.emptyStateRow]) Sample.page in
  recordsTable b = Some [Records.emptyStateRow] ∧
  Records.displayRecords string string id id [record]
    (Records.displayRecords string string id id [record] b)
  = Records.displayRecords string string id id [record] b.
Proof.
  intros record b. split; [reflexivity|].
  exact (proj2 (displayRecords_replaces id id [record] b _ [] eq_refl)).
Defined.

Lemma initDashboard_requests_witness :
  let b := setItem "token" "t0k3n" Sample.page in
  getItem "token" b = Some "t0k3n" ∧
  getItem "token" Sample.page = None ∧
  (req_url <$> fetches (Dashboard.initDashboard string string id id FetchRejects b None).1)
    = ["http://localhost:8000/api/stats"; "http://localhost:8000/api/records"] ∧
  Dashboard.initDashboard string string id id FetchRejects Sample.page None
    = (set_href "index.html" Sample.page, None).
Proof.
  intros b. split; [reflexivity|]. split; [reflexivity|]. split.
  - destruct (initDashboard_requests id id FetchRejects b None) as (_ & Hyes).
    assert (Hne : "t0k3n" ≠ "") by discriminate.
    destruct (Hyes "t0k3n" eq_refl Hne) as (_ & _ & Hurls & _). exact Hurls.
  - destruct (initDashboard_requests id id FetchRejects Sample.page None) as (Hno & _).
    exact (Hno (or_introl eq_refl)).
Defined.

Lemma loadAllRecords_failures_witness :
  let b := set_recordsTable (Some [Records.emptyStateRow]) Sample.page in
  recordsTable (Records.loadAllRecords string string id id (Response false None) b)
    = Some [Records.emptyStateRow] ∧
  alerts (Records.loadAllRecords string string id id FetchRejects b)
    = [mkAlert "Failed to load records" "error"].
Proof.
  intros b. split.
  - destruct (loadAllRecords_failures id id (Response false None) b)
      as (_ & Hdrop & _).
    exact (proj1 (Hdrop None eq_refl)).
  - destruct (loadAllRecords_failures id id FetchRejects b) as (_ & _ & Hfail & _).
    exact (proj2 (Hfail (or_introl eq_refl))).
Defined.

(** ** More on the search box *)

Lemma string_app_assoc (a b c : string) : (a +:+ b) +:+ c = a +:+ (b +:+ c).
Proof. induction a as [|x a IH]; [reflexivity | exact (f_equal (String x) IH)]. Qed.

Lemma string_app_nil_r (a : string) : a +:+ "" = a.
Proof. induction a as [|x a IH]; [reflexivity | exact (f_equal (String x) IH)]. Qed.

Lemma string_length_app (a b : string) :
  String.length (a +:+ b) = (String.length a + String.length b)%nat.
Proof. induction a as [|x a IH]; [reflexivity | exact (f_equal S IH)]. Qed.

Lemma includes_empty (s : string) : Js.includes s "" = true.
Proof. by destruct s. Qed.

Lemma includes_trans (s p q : string) :
  Js.includes s p = true → Js.includes p q = true → Js.includes s q = true.
Proof.
  rewrite !includes_spec. intros (a & b & ->) (c & d & ->).
  exists (a +:+ c), (d +:+ b). by rewrite !string_app_assoc.
Qed.

(** The rows of the table after the listener ran with [value]. *)
Lemma setupSearch_input_rows (toLowerCase : string → string) value b rows :
  recordsTable b = Some rows →
  recordsTable (Records.setupSearch_input toLowerCase value b) =
  Some ((λ row, mkRow (row_text row)
                  (if Js.includes (toLowerCase (row_text row)) (toLowerCase value)
                   then "" else "none")
                  (row_badge row) (row_opens row)) <$> rows).
Proof. intros Hrows. unfold Records.setupSearch_input. by rewrite Hrows. Qed.

Lemma ascii_text_app (a b : string) :
  Spec.ascii_text a → Spec.ascii_text b → Spec.ascii_text (a +:+ b).
Proof.
  intros Ha Hb. induction a as [|c a IH]; [exact Hb|].
  destruct Ha as [Hc Ha]. split; [exact Hc | by apply IH].
Qed.

(** X15: with the search box emptied every row of the table is visible
    again, whatever was hidden before; the lower case of the empty text is
    the empty text. *)
Theorem setupSearch_empty_query (toLowerCase : string → string) b rows :
  toLowerCase "" = "" →
  recordsTable b = Some rows →
  ∃ rows', recordsTable (Records.setupSearch_input toLowerCase "" b) = Some rows' ∧
    length rows' = length rows ∧
    Forall Spec.visible rows'.
Proof.
  intros Hempty Hrows. eexists. split; [by apply setupSearch_input_rows|].
  split; [by rewrite length_fmap|].
  apply Forall_fmap, Forall_forall. intros row _.
  unfold Spec.visible. simpl. by rewrite Hempty, includes_empty.
Qed.

Lemma setupSearch_empty_query_witness :
  let b := set_recordsTable (Some [mkRow "Jane Doe" "none" None (Some 1%N)]) Sample.page in
  Spec.ascii_lower "" = "" ∧
  recordsTable b = Some [mkRow "Jane Doe" "none" None (Some 1%N)] ∧
  ∃ rows', recordsTable (Records.setupSearch_input Spec.ascii_lower "" b) = Some rows' ∧
    length rows' = 1%nat ∧ Forall Spec.visible rows'.
Proof.
  intros b. split; [reflexivity|]. split; [reflexivity|].
  exact (setupSearch_empty_query Spec.ascii_lower b _ eq_refl eq_refl).
Defined.

(** X16: only the text now in the search box counts: the state after two
    keystrokes is the state the second alone would give, so that filtering
    keeps no memory of earlier queries. *)
Theorem setupSearch_last_query_wins (toLowerCase : string → string) value1 value2 b :
  Records.setupSearch_input toLowerCase value2
    (Records.setupSearch_input toLowerCase value1 b) =
  Records.setupSearch_input toLowerCase value2 b.
Proof.
  unfold Records.setupSearch_input.
  destruct (recordsTable b) as [rows|] eqn:Hrows; simpl; [|by rewrite Hrows].
  unfold set_recordsTable. simpl. do 2 f_equal.
  rewrite <- list_fmap_compose. by apply list_fmap_ext.
Qed.

(** X17: a query whose lower case contains the lower case of the earlier
    query narrows the view: every row visible under it was visible under
    the earlier one.  Typing further ASCII characters after a query of ASCII
    characters is such a case. *)
Theorem setupSearch_narrows (toLowerCase : string → string) value1 value2 b rows :
  recordsTable b = Some rows →
  ∃ rows1 rows2,
    recordsTable (Records.setupSearch_input toLowerCase value1 b) = Some rows1 ∧
    recordsTable (Records.setupSearch_input toLowerCase value2 b) = Some rows2 ∧
    let narrowed :=
      ∀ i row2, rows2 !! i = Some row2 → Spec.visible row2 →
        ∃ row1, rows1 !! i = Some row1 ∧ Spec.visible row1 ∧
                row_text row1 = row_text row2 in
    (Spec.contains_nocase toLowerCase value2 value1 → narrowed) ∧
    (Spec.agrees_on_ascii toLowerCase Spec.ascii_lower →
     ∀ more, value2 = value1 +:+ more →
       Spec.ascii_text value1 → Spec.ascii_text more → narrowed).
Proof.
  intros Hrows. eexists _, _.
  split; [by apply setupSearch_input_rows|].
  split; [by apply setupSearch_input_rows|]. cbv zeta.
  assert (Hnarrow : Spec.contains_nocase toLowerCase value2 value1 →
            ∀ i row2,
              ((λ row, mkRow (row_text row)
                         (if Js.includes (toLowerCase (row_text row))
                               (toLowerCase value2)
                          then "" else "none")
                         (row_badge row) (row_opens row)) <$> rows) !! i = Some row2 →
              Spec.visible row2 →
              ∃ row1,
                ((λ row, mkRow (row_text row)
                           (if Js.includes (toLowerCase (row_text row))
                                 (toLowerCase value1)
                            then "" else "none")
                           (row_badge row) (row_opens row)) <$> rows) !! i = Some row1 ∧
                Spec.visible row1 ∧ row_text row1 = row_text row2).
  { intros Hcontains i row2 Hi Hvisible.
    rewrite list_lookup_fmap in Hi.
    destruct (rows !! i) as [row|] eqn:Hrow; [|discriminate]. simpl in Hi.
    injection Hi as <-. unfold Spec.visible in Hvisible. simpl in Hvisible.
    eexists. split; [by rewrite list_lookup_fmap, Hrow|].
    split; [|reflexivity]. unfold Spec.visible. simpl.
    apply includes_contains_nocase in Hcontains.
    destruct (Js.includes (toLowerCase (row_text row)) (toLowerCase value2))
      eqn:Htwo; [|discriminate].
    by rewrite (includes_trans _ _ _ Htwo Hcontains). }
  split; [exact Hnarrow|].
  intros Hagree more -> Hone Hmore. apply Hnarrow.
  exists "", (Spec.ascii_lower more).
  rewrite (Hagree _ (ascii_text_app _ _ Hone Hmore)), (Hagree _ Hone).
  by rewrite ascii_lower_app.
Qed.

Lemma setupSearch_narrows_witness :
  let rows := [mkRow "Jane Doe" "" None (Some 1%N);
               mkRow "Janet Roe" "" None (Some 2%N)] in
  let b := set_recordsTable (Some rows) Sample.page in
  recordsTable b = Some rows ∧
  Spec.agrees_on_ascii Spec.ascii_lower Spec.ascii_lower ∧
  Spec.ascii_text "jan" ∧ Spec.ascii_text "e D" ∧
  ∃ rows1 rows2,
    recordsTable (Records.setupSearch_input Spec.ascii_lower "jan" b) = Some rows1 ∧
    recordsTable (Records.setupSearch_input Spec.ascii_lower "jane D" b) = Some rows2 ∧
    row_display <$> rows1 = [""; ""] ∧
    row_display <$> rows2 = [""; "none"] ∧
    ∀ i row2, rows2 !! i = Some row2 → Spec.visible row2 →
      ∃ row1, rows1 !! i = Some row1 ∧ Spec.visible row1 ∧
              row_text row1 = row_text row2.
Proof.
  intros rows b.
  assert (Hagree : Spec.agrees_on_ascii Spec.ascii_lower Spec.ascii_lower)
    by (intros s _; reflexivity).
  assert (Hone : Spec.ascii_text "jan") by (simpl; repeat split; reflexivity).
  assert (Hmore : Spec.ascii_text "e D") by (simpl; repeat split; reflexivity).
  split; [reflexivity|]. split; [exact Hagree|].
  split; [exact Hone|]. split; [exact Hmore|].
  destruct (setupSearch_narrows Spec.ascii_lower "jan" "jane D" b rows eq_refl)
    as (rows1 & rows2 & H1 & H2 & _ & Htyped).
  exists rows1, rows2. split; [exact H1|]. split; [exact H2|].
  pose proof (Htyped Hagree "e D" eq_refl Hone Hmore) as Hnarrowed.
  simpl in H1, H2. injection H1 as <-. injection H2 as <-.
  split; [reflexivity|]. split; [reflexivity|]. exact Hnarrowed.
Defined.

Section EmptyTable.

Context {Confidence Timestamp : Type}.
Variable toFixed1 : Confidence → string.
Variable toLocaleString : Timestamp → string.
Variable toLowerCase : string → string.

(** X18: the empty-state row is filtered like any other row: with no
    record to show, a query that its message does not contain hides the
    message and leaves the table blank. *)
Theorem setupSearch_hides_empty_state value b old :
  recordsTable b = Some old →
  ¬ Spec.contains_nocase toLowerCase (row_text Records.emptyStateRow) value →
  recordsTable
    (Records.setupSearch_input toLowerCase value
       (Records.displayRecords Confidence Timestamp toFixed1 toLocaleString [] b))
  = Some [mkRow (row_text Records.emptyStateRow) "none" None None].
Proof.
  intros Htable Hnot.
  rewrite (setupSearch_input_rows toLowerCase value _ [Records.emptyStateRow]).
  - rewrite <- includes_contains_nocase in Hnot.
    cbn [fmap list_fmap]. by destruct (Js.includes _ _).
  - unfold Records.displayRecords. by rewrite Htable.
Qed.

End EmptyTable.

Lemma setupSearch_hides_empty_state_witness :
  let b := set_recordsTable (Some []) Sample.page in
  recordsTable b = Some [] ∧
  ¬ Spec.contains_nocase Spec.ascii_lower (row_text Records.emptyStateRow) "jane" ∧
  recordsTable
    (Records.setupSearch_input Spec.ascii_lower "jane"
       (Records.displayRecords string string id id [] b))
  = Some [mkRow (row_text Records.emptyStateRow) "none" None None].
Proof.
  intros b.
  assert (Hnot : ¬ Spec.contains_nocase Spec.ascii_lower
                     (row_text Records.emptyStateRow) "jane").
  { rewrite <- includes_contains_nocase. by vm_compute. }
  split; [reflexivity|]. split; [exact Hnot|].
  exact (setupSearch_hides_empty_state id id Spec.ascii_lower "jane" b [] eq_refl Hnot).
Defined.

(** ** Splitting at ", " *)

Lemma split_from_piece (x rest cur : string) :
  Js.includes x ", " = false →
  Js.split_from ", " (x +:+ ", " +:+ rest) 0 cur =
  (cur +:+ x) :: Js.split_from ", " rest 0 "".
Proof.
  revert cur. induction x as [|c x IH]; intros cur Hno.
  - simpl. by rewrite string_app_nil_r.
  - cbn [Js.includes] in Hno. apply orb_false_iff in Hno as [Hstart Hno].
    assert (Hhere : Js.startsWith (String c (x +:+ ", " +:+ rest)) ", " = false).
    { destruct x; simpl in *; destruct (Ascii.eqb "," c); simpl in *; done. }
    change ((String c x) +:+ ", " +:+ rest) with (String c (x +:+ ", " +:+ rest)).
    cbn [Js.split_from]. rewrite Hhere, (IH _ Hno).
    by rewrite string_app_assoc.
Qed.

Lemma split_from_last (x cur : string) :
  Js.includes x ", " = false → Js.split_from ", " x 0 cur = [cur +:+ x].
Proof.
  revert cur. induction x as [|c x IH]; intros cur Hno.
  - simpl. by rewrite string_app_nil_r.
  - cbn [Js.includes] in Hno. apply orb_false_iff in Hno as [Hstart Hno].
    cbn [Js.split_from]. rewrite Hstart, (IH _ Hno).
    by rewrite string_app_assoc.
Qed.

Lemma split_from_not_nil (sep s : string) skip cur : Js.split_from sep s skip cur ≠ [].
Proof.
  revert skip cur. induction s as [|c s IH]; intros skip cur; simpl; [done|].
  destruct skip; [|apply IH]. destruct (Js.startsWith _ _); [done | apply IH].
Qed.

Lemma join_cons (sep x : string) (rest : list string) :
  rest ≠ [] → Js.join sep (x :: rest) = x +:+ sep +:+ Js.join sep rest.
Proof. by destruct rest. Qed.

(** Joining the pieces gives the text back. *)
Lemma join_split_from (n : nat) (s cur : string) :
  (String.length s ≤ n)%nat →
  Js.join ", " (Js.split_from ", " s 0 cur) = cur +:+ s.
Proof.
  revert s cur. induction n as [|n IH]; intros s cur Hlen.
  - destruct s; [|simpl in Hlen; lia]. simpl. by rewrite string_app_nil_r.
  - destruct s as [|c s]; [simpl; by rewrite string_app_nil_r|].
    cbn [Js.split_from].
    destruct (Js.startsWith (String c s) ", ") eqn:Hstart.
    + apply startsWith_spec in Hstart as [rest Hrest]. simpl in Hrest.
      injection Hrest as -> ->. simpl in Hlen.
      rewrite join_cons by apply split_from_not_nil.
      change (Js.split_from ", " (" " +:+ rest) (String.length ", " - 1) "")
        with (Js.split_from ", " rest 0 "").
      change ("" +:+ rest) with rest in Hlen.
      rewrite IH by lia. reflexivity.
    + simpl in Hlen. rewrite IH by lia. by rewrite string_app_assoc.
Qed.

(** Splitting at ", " undoes joining with ", ": a list that is not empty
    and none of whose items contains ", " is what the split of its joined
    text gives; and for every text, joining the pieces of its split gives
    the text back, the split having at least one piece. *)
Lemma split_join_round_trip :
  (∀ items : list string,
     items ≠ [] →
     Forall (λ item, Js.includes item ", " = false) items →
     Js.split (Js.join ", " items) ", " = items) ∧
  (∀ text : string,
     Js.join ", " (Js.split text ", ") = text ∧ Js.split text ", " ≠ []).
Proof.
  split.
  - intros items Hne Hitems. unfold Js.split.
    induction items as [|x [|y rest] IH]; [done|..].
    + apply Forall_cons in Hitems as [Hx _]. simpl. by rewrite split_from_last.
    + apply Forall_cons in Hitems as [Hx Hrest].
      rewrite join_cons by done. rewrite split_from_piece by done.
      rewrite IH by done. reflexivity.
  - intros text. unfold Js.split. split; [|apply split_from_not_nil].
    by rewrite (join_split_from (String.length text)).
Qed.

Example split_join_three_items :
  Js.split (Js.join ", " ["Rest"; "Chest X-ray in 2 weeks"; "Antibiotics"]) ", "
    = ["Rest"; "Chest X-ray in 2 weeks"; "Antibiotics"].
Proof.
  apply (proj1 split_join_round_trip); [discriminate|].
  repeat (constructor; [reflexivity|]). constructor.
Defined.

(** An item that contains ", " does not survive the round trip. *)
Example split_breaks_item :
  Js.split (Js.join ", " ["Rest, fluids"; "Antibiotics"]) ", "
    = ["Rest"; "fluids"; "Antibiotics"] ∧
  Js.split "" ", " = [""].
Proof. split; reflexivity. Qed.

(** ** The detail overlay *)

Section Overlay.

Context {Confidence Timestamp Vital : Type}.
Variable toFixed1 : Confidence → string.
Variable toLocaleString : Timestamp → string.
Variable vital_truthy : Vital → bool.
Variable vital_text : Vital → string.

Abbreviation RecordDetail := (Records.RecordDetail Confidence Timestamp Vital).
Abbreviation showRecordModal :=
  (Records.showRecordModal Confidence Timestamp Vital toFixed1 toLocaleString
     vital_truthy vital_text).
Abbreviation viewRecordDetail :=
  (Records.viewRecordDetail Confidence Timestamp Vital toFixed1 toLocaleString
     vital_truthy vital_text).
Abbreviation vital_shown := (Records.vital_shown Vital vital_truthy).

(** X19: the recommendation list of the overlay.  Its items, joined with
    ", ", always give the recommendations text back, and there is at least
    one item: an empty text shows as one empty item.  When the text was made
    by joining with ", " a non-empty list of items none of which contains
    ", ", the overlay lists exactly those items. *)
Theorem showRecordModal_recommendations (data : RecordDetail) (analysisId : N) :
  let shown := Records.modal_recommendations (showRecordModal data analysisId) in
  Js.join ", " shown = Records.rd_recommendations _ _ _ data ∧
  shown ≠ [] ∧
  (Records.rd_recommendations _ _ _ data = "" → shown = [""]) ∧
  (∀ items : list string,
     items ≠ [] →
     Forall (λ item, Js.includes item ", " = false) items →
     Records.rd_recommendations _ _ _ data = Js.join ", " items →
     shown = items).
Proof.
  cbv zeta. unfold Records.showRecordModal. cbn [Records.modal_recommendations].
  destruct split_join_round_trip as [Hsplit Hjoin].
  split; [apply Hjoin|]. split; [apply Hjoin|]. split.
  - by intros ->.
  - intros items Hne Hitems ->. by apply Hsplit.
Qed.

(** X20: the optional parts of the overlay.  The "Vital Signs" block is
    rendered exactly when one of the four signs is truthy.  It then holds,
    in the order temperature, oxygen saturation, heart rate, respiratory
    rate, one entry for each truthy sign, made of the label of that sign,
    its value and its unit; a sign that is [null] or falsy (zero) has no
    entry, so the block is never rendered empty.  The patient block holds
    name, age and gender, and after them a paragraph for the medical
    history exactly when that is a non-empty text. *)
Theorem showRecordModal_optional_parts (data : RecordDetail) (analysisId : N) :
  let signs := Records.rd_vital_signs _ _ _ data in
  let entry_of (sign : string * string * option Vital) : option string :=
    x ← sign.2;
    if vital_truthy x
    then Some (sign.1.1 +:+ " " +:+ vital_text x +:+ sign.1.2) else None in
  let entries :=
    omap entry_of
      [("Temperature:", "°C", Records.vs_temperature _ signs);
       ("O₂ Saturation:", "%", Records.vs_oxygen_saturation _ signs);
       ("Heart Rate:", " bpm", Records.vs_heart_rate _ signs);
       ("Resp. Rate:", " breaths/min", Records.vs_respiratory_rate _ signs)] in
  let m := showRecordModal data analysisId in
  Records.modal_vitals m = (if decide (entries = []) then None else Some entries) ∧
  (Records.modal_vitals m = None ↔
   vital_shown (Records.vs_temperature _ signs) = false ∧
   vital_shown (Records.vs_oxygen_saturation _ signs) = false ∧
   vital_shown (Records.vs_heart_rate _ signs) = false ∧
   vital_shown (Records.vs_respiratory_rate _ signs) = false) ∧
  Records.modal_patient m =
    ["Name: " +:+ Records.rd_name _ _ _ data;
     "Age: " +:+ pretty (Records.rd_age _ _ _ data) +:+ " years";
     "Gender: " +:+ Records.rd_gender _ _ _ data] ++
    match Records.rd_medical_history _ _ _ data with
    | Some history => if decide (history = "") then [] else ["Medical History: " +:+ history]
    | None => []
    end.
Proof.
  cbv zeta. unfold Records.showRecordModal.
  cbn [Records.modal_vitals Records.modal_patient].
  destruct (Records.rd_vital_signs _ _ _ data) as [t o h r].
  cbn [Records.vs_temperature Records.vs_oxygen_saturation Records.vs_heart_rate
       Records.vs_respiratory_rate].
  split; [|split].
  - unfold Records.vital_entry, Records.vital_shown.
    destruct t as [t|], o as [o|], h as [h|], r as [r|]; simpl;
      repeat match goal with
             | |- context [vital_truthy ?x] => destruct (vital_truthy x); simpl
             end;
      reflexivity.
  - unfold Records.vital_entry, Records.vital_shown.
    destruct t as [t|], o as [o|], h as [h|], r as [r|]; simpl;
      repeat match goal with
             | |- context [vital_truthy ?x] => destruct (vital_truthy x); simpl
             end;
      (split; [try done; intros _; repeat split; done | by intros (? & ? & ? & ?)]).
  - f_equal. unfold Js.truthy.
    destruct (Records.rd_medical_history _ _ _ data) as [history|]; [|done].
    simpl. destruct (String.eqb_spec history ""); by case_decide.
Qed.

(** X21: opening a record.  Exactly one request is made, a GET of
    [/api/records/id] with the bearer token.  An ok, readable answer opens
    an overlay whose download button asks for the report of that same id.
    An answer that is not ok opens nothing and says nothing; a failed call
    or an unreadable body opens nothing and shows the notification. *)
Theorem viewRecordDetail_outcomes (analysisId : N) (net : FetchOutcome RecordDetail) b :
  let b' := (viewRecordDetail analysisId net b).1 in
  let overlay := (viewRecordDetail analysisId net b).2 in
  fetches b' =
    fetches b ++ [mkRequest (API_URL +:+ "/api/records/" +:+ pretty analysisId) "GET"
                    [("Authorization", Common.bearer b);
                     ("Content-Type", "application/json")] NoBody] ∧
  (∀ data, net = Response true (Some data) →
     alerts b' = alerts b ∧
     ∃ m, overlay = Some m ∧ Records.modal_download m = analysisId ∧
          req_url (Common.downloadReport_request (Records.modal_download m) b') =
            API_URL +:+ "/api/download/report/" +:+ pretty analysisId) ∧
  (∀ body, net = Response false body → overlay = None ∧ alerts b' = alerts b) ∧
  (net = FetchRejects ∨ net = Response true None →
     overlay = None ∧
     alerts b' = alerts b ++ [mkAlert "Failed to load record details" "error"]).
Proof.
  cbv zeta. unfold Records.viewRecordDetail. split; [|split; [|split]].
  - destruct net as [|[] [data|]]; reflexivity.
  - intros data ->. split; [done|]. eexists. by split.
  - by intros body ->.
  - by intros [-> | ->].
Qed.

End Overlay.

Lemma showRecordModal_recommendations_witness :
  let data := Records.mkRecordDetail string string N "Jane Doe" 34 "Female" None
                "Pneumonia" "Severe" "97.2" "1/2/2025" "Cough, Fever"
                "Rest, Antibiotics"
                (Records.mkVitalSigns N (Some 38%N) None (Some 0%N) None) in
  Records.modal_recommendations
    (Records.showRecordModal string string N id id (λ v, negb (v =? 0)%N) pretty data 3)
  = ["Rest"; "Antibiotics"].
Proof.
  intros data.
  apply (showRecordModal_recommendations id id (λ v, negb (v =? 0)%N) pretty data 3).
  - discriminate.
  - repeat (constructor; [reflexivity|]). constructor.
  - reflexivity.
Defined.

Lemma showRecordModal_optional_parts_witness :
  let data := Records.mkRecordDetail string string N "Jane Doe" 34 "Female" (Some "Asthma")
                "Pneumonia" "Severe" "97.2" "1/2/2025" "Cough, Fever"
                "Rest, Antibiotics"
                (Records.mkVitalSigns N (Some 38%N) None (Some 0%N) (Some 18%N)) in
  let m := Records.showRecordModal string string N id id (λ v, negb (v =? 0)%N)
             pretty data 3 in
  Records.modal_vitals m = Some ["Temperature: 38°C"; "Resp. Rate: 18 breaths/min"] ∧
  Records.modal_patient m =
    ["Name: Jane Doe"; "Age: 34 years"; "Gender: Female"; "Medical History: Asthma"].
Proof.
  intros data m.
  destruct (showRecordModal_optional_parts id id (λ v, negb (v =? 0)%N) pretty data 3)
    as (Hvitals & _ & Hpatient).
  split; [exact Hvitals | exact Hpatient].
Defined.

Lemma viewRecordDetail_outcomes_witness :
  (Records.viewRecordDetail string string N id id (λ v, negb (v =? 0)%N) pretty 3
     FetchRejects Sample.page).2 = None ∧
  alerts (Records.viewRecordDetail string string N id id (λ v, negb (v =? 0)%N) pretty 3
            FetchRejects Sample.page).1
    = [mkAlert "Failed to load record details" "error"].
Proof.
  destruct (viewRecordDetail_outcomes id id (λ v, negb (v =? 0)%N) pretty 3
              FetchRejects Sample.page) as (_ & _ & _ & Hfail).
  exact (Hfail (or_introl eq_refl)).
Defined.

(** ** The two revisions of the overlay *)

(** X22: the two revisions of [showRecordModal] give a record the same
    badge exactly when its severity is Severe, Moderate or Mild. *)
Theorem showRecordModal_revisions_agree (severity : string) :
  RecordsPage.showRecordModal_badge severity =
    Records.showRecordModal_severityClass severity
  ↔ severity ∈ ["Severe"; "Moderate"; "Mild"].
Proof.
  unfold RecordsPage.showRecordModal_badge, Records.showRecordModal_severityClass.
  split.
  - string_eqb_cases; intros Heq; try discriminate Heq;
      repeat first [apply list_elem_of_here | apply list_elem_of_further].
  - intros Hin. repeat (apply elem_of_cons in Hin as [-> | Hin]); try reflexivity.
    by apply elem_of_nil in Hin.
Qed.

Lemma showRecordModal_revisions_agree_witness :
  RecordsPage.showRecordModal_badge "Mild" = Records.showRecordModal_severityClass "Mild".
Proof.
  apply showRecordModal_revisions_agree.
  repeat first [apply list_elem_of_here | apply list_elem_of_further].
Defined.

(** ** The dashboard *)

Section RecentAnalyses.

Context {Confidence Timestamp : Type}.
Variable toFixed1 : Confidence → string.
Variable toLocaleDateString : Timestamp → string.

Abbreviation ApiRecord' := (Records.ApiRecord Confidence Timestamp).
Abbreviation recentRow' :=
  (Dashboard.recentRow Confidence Timestamp toFixed1 toLocaleDateString).
Abbreviation loadRecentAnalyses' :=
  (Dashboard.loadRecentAnalyses Confidence Timestamp toFixed1 toLocaleDateString).

Lemma forEach_recentRow (records : list ApiRecord') (rows : list Dashboard.RecentRow) :
  foldl (λ rows record, rows ++ [recentRow' record]) rows records =
  rows ++ (recentRow' <$> records).
Proof.
  revert rows. induction records as [|record records IH]; intros rows; simpl.
  - by rewrite app_nil_r.
  - rewrite IH. by rewrite <- app_assoc.
Qed.

(** X23: the table of recent analyses.  For an ok, readable answer it
    shows the first five records of the answer, in their order and one row
    each, so never more than five rows; each row leads to
    [records.html?id=] followed by the id of its record.  With no record
    it shows the one row of the empty state. *)
Theorem loadRecentAnalyses_rows (records : list ApiRecord') b old :
  let tbody := (loadRecentAnalyses' (Response true (Some records)) b (Some old)).2 in
  (records = [] → tbody = Some [Dashboard.emptyStateRow]) ∧
  (records ≠ [] →
     ∃ rows, tbody = Some rows ∧
       rows = recentRow' <$> take 5 records ∧
       length rows = (length records `min` 5)%nat ∧
       ∀ i record, (i < 5)%nat → records !! i = Some record →
         ∃ row, rows !! i = Some row ∧
           Dashboard.recent_href row =
             Some ("records.html?id=" +:+ pretty (Records.id _ _ record))).
Proof.
  cbv zeta. unfold Dashboard.loadRecentAnalyses, Dashboard.displayRecentAnalyses.
  cbn [snd]. split.
  - by intros ->.
  - intros Hne. rewrite decide_False by (destruct records; [done | simpl; lia]).
    rewrite forEach_recentRow. eexists. split; [reflexivity|]. simpl.
    split; [reflexivity|]. split.
    + rewrite length_fmap, length_take. lia.
    + intros i record Hi Hrecord. exists (recentRow' record).
      split; [|reflexivity].
      by rewrite list_lookup_fmap, lookup_take_lt, Hrecord.
Qed.

(** X24: the dashboard keeps quiet about failures: unless the answer is
    ok and readable, the table of recent analyses stays as it was and no
    notification is shown. *)
Theorem loadRecentAnalyses_silent_failure
    (net : FetchOutcome (list ApiRecord')) b tbody :
  (∀ records, net ≠ Response true (Some records)) →
  (loadRecentAnalyses' net b tbody).2 = tbody ∧
  alerts (loadRecentAnalyses' net b tbody).1 = alerts b ∧
  length (fetches (loadRecentAnalyses' net b tbody).1) = S (length (fetches b)).
Proof.
  intros Hfail. unfold Dashboard.loadRecentAnalyses.
  destruct net as [|[] [records|]]; simpl;
    try (by destruct (Hfail records));
    rewrite length_app; simpl; (split; [done|split; [done|lia]]).
Qed.

End RecentAnalyses.

Lemma loadRecentAnalyses_rows_witness :
  let record n := Records.mkApiRecord string string n "Jane Doe" 34 "Female"
                    "Pneumonia" "Severe" "97.2" "1/2/2025" in
  let records := record <$> [1; 2; 3; 4; 5; 6; 7]%N in
  ∃ rows,
    (Dashboard.loadRecentAnalyses string string id id (Response true (Some records))
       Sample.page (Some [])).2 = Some rows ∧
    length rows = 5%nat.
Proof.
  intros record records.
  destruct (loadRecentAnalyses_rows id id records Sample.page []) as (_ & Hrows).
  destruct Hrows as (rows & Htbody & _ & Hlen & _); [discriminate|].
  exists rows. split; [exact Htbody | exact Hlen].
Defined.

Lemma loadRecentAnalyses_silent_failure_witness :
  (Dashboard.loadRecentAnalyses string string id id (Response false None)
     Sample.page (Some [Dashboard.emptyStateRow])).2 = Some [Dashboard.emptyStateRow] ∧
  alerts (Dashboard.loadRecentAnalyses string string id id (Response false None)
            Sample.page (Some [Dashboard.emptyStateRow])).1 = [].
Proof.
  destruct (loadRecentAnalyses_silent_failure id id (Response false None) Sample.page
              (Some [Dashboard.emptyStateRow])) as (Htbody & Halerts & _).
  - intros records. discriminate.
  - split; [exact Htbody | exact Halerts].
Defined.

(** ** More on the report download *)

Lemma string_app_inj_r (a b c : string) : a +:+ c = b +:+ c → a = b.
Proof.
  revert b. induction a as [|x a IH]; intros [|y b] Heq.
  - reflexivity.
  - apply (f_equal String.length) in Heq.
    rewrite !string_length_app in Heq. simpl in Heq. lia.
  - apply (f_equal String.length) in Heq.
    rewrite !string_length_app in Heq. simpl in Heq. lia.
  - injection Heq as -> Heq. f_equal. by apply IH.
Qed.

(** X25: reports are kept apart and the download touches nothing else.
    Two different analysis ids are requested at different addresses and
    saved under different file names; and whatever the outcome, the
    storage, the location, the timers and the records table are as
    before. *)
Theorem downloadReport_distinct (n m : N) (net : FetchOutcome string) b :
  (n ≠ m →
   req_url (Common.downloadReport_request n b)
     ≠ req_url (Common.downloadReport_request m b) ∧
   ∀ blob,
     download_name <$> downloads (Common.downloadReport n (Response true (Some blob)) b)
     ≠ download_name <$> downloads (Common.downloadReport m (Response true (Some blob)) b)) ∧
  localStorage (Common.downloadReport n net b) = localStorage b ∧
  href (Common.downloadReport n net b) = href b ∧
  timers (Common.downloadReport n net b) = timers b ∧
  recordsTable (Common.downloadReport n net b) = recordsTable b.
Proof.
  split.
  - intros Hne. split.
    + simpl. intros Heq. apply Hne.
      apply (inj (String.app API_URL)) in Heq.
      apply (inj (String.app "/api/download/report/")) in Heq.
      by apply (inj pretty) in Heq.
    + intros blob. simpl. rewrite !fmap_app. simpl. intros Heq.
      apply app_inj_1 in Heq as [_ Heq]; [|reflexivity].
      injection Heq as Heq. apply Hne.
      change (pretty n +:+ ".pdf" = pretty m +:+ ".pdf") in Heq.
      apply string_app_inj_r in Heq. by apply (inj pretty) in Heq.
  - by destruct net as [|[] [blob|]].
Qed.

Lemma downloadReport_distinct_witness :
  req_url (Common.downloadReport_request 4 Sample.page)
    ≠ req_url (Common.downloadReport_request 42 Sample.page).
Proof.
  assert (Hne : (4 ≠ 42)%N) by discriminate.
  exact (proj1 (proj1 (downloadReport_distinct 4 42 FetchRejects Sample.page) Hne)).
Defined.

(** ** More on the theme *)

Lemma toggleTheme_state b :
  ∃ t, t ∈ ["light"; "dark"] ∧
    dataTheme (Common.toggleTheme b) = Some t ∧
    getItem "theme" (Common.toggleTheme b) = Some t ∧
    (dataTheme b = Some "light" → t = "dark") ∧
    (dataTheme b ≠ Some "light" → t = "light").
Proof.
  unfold Common.toggleTheme, getItem. simpl. case_decide as Hcur.
  - exists "dark". rewrite lookup_insert_eq.
    split; [apply list_elem_of_further, list_elem_of_here|].
    split; [done|]. split; [done|]. split; [done|].
    intros Hnot. by destruct Hnot.
  - exists "light". rewrite lookup_insert_eq.
    split; [apply list_elem_of_here|].
    split; [done|]. split; [done|]. split; [|done].
    intros Hlight. by destruct Hcur.
Qed.

(** X26: one toggle puts the theme in order, whatever the state before:
    afterwards the attribute and the stored preference agree and are
    "light" or "dark".  The result is "dark" only when the attribute was
    "light"; a missing or unknown attribute gives "light".  From then on
    toggling is an involution: three toggles are one. *)
Theorem toggleTheme_establishes_invariant b :
  (∃ t, t ∈ ["light"; "dark"] ∧
     dataTheme (Common.toggleTheme b) = Some t ∧
     getItem "theme" (Common.toggleTheme b) = Some t ∧
     (dataTheme b = Some "light" → t = "dark") ∧
     (dataTheme b ≠ Some "light" → t = "light")) ∧
  Common.toggleTheme (Common.toggleTheme (Common.toggleTheme b)) = Common.toggleTheme b.
Proof.
  split; [apply toggleTheme_state|].
  destruct b as [storage attr ? ? ? ? ? ? ? ?].
  unfold Common.toggleTheme, setItem, set_localStorage, set_dataTheme. simpl.
  destruct (decide (attr = Some "light")); simpl; by rewrite !insert_insert_eq.
Qed.

Lemma toggleTheme_establishes_invariant_witness :
  dataTheme (Common.toggleTheme Sample.page) = Some "light" ∧
  getItem "theme" (Common.toggleTheme Sample.page) = Some "light".
Proof.
  destruct (toggleTheme_establishes_invariant Sample.page)
    as ((t & _ & Hattr & Hstored & _ & Hlight) & _).
  assert (Ht : t = "light") by (apply Hlight; discriminate).
  subst t. split; [exact Hattr | exact Hstored].
Defined.

(** X27: the theme survives the page: on a document whose root has no
    attribute yet, [initTheme] shows the theme the last toggle left, also
    when a logout and a login of any outcome came in between; it writes
    nothing, and running it again changes nothing. *)
Theorem initTheme_restores_toggled b form net :
  let b1 := Common.toggleTheme b in
  dataTheme (Common.initTheme (set_dataTheme None b1)) = dataTheme b1 ∧
  dataTheme (Common.initTheme
               (set_dataTheme None
                  (Auth.handleLogin form net (Common.handleLogout b1)))) = dataTheme b1 ∧
  localStorage (Common.initTheme b1) = localStorage b1 ∧
  Common.initTheme (Common.initTheme b) = Common.initTheme b.
Proof.
  cbv zeta. destruct (toggleTheme_state b) as (t & Ht & Hattr & Hstored & _).
  assert (Hor : Js.or (Some t) "light" = t).
  { repeat (apply elem_of_cons in Ht as [-> | Ht]); try reflexivity.
    by apply elem_of_nil in Ht. }
  assert (Hkept : getItem "theme"
                    (Auth.handleLogin form net
                       (Common.handleLogout (Common.toggleTheme b))) = Some t).
  { rewrite <- Hstored. unfold Auth.handleLogin, Common.handleLogout, getItem.
    destruct net as [|[] [data|]]; simpl;
      rewrite ?lookup_insert_ne by done; by rewrite !lookup_delete_ne by done. }
  assert (Hinit : ∀ b0, getItem "theme" b0 = Some t →
            dataTheme (Common.initTheme b0) = Some t).
  { intros b0 Hb0. unfold Common.initTheme. rewrite Hb0, Hor. reflexivity. }
  rewrite Hattr. split; [|split; [|split; [done|done]]].
  - apply Hinit. by rewrite <- Hstored.
  - apply Hinit. by rewrite <- Hkept.
Qed.

(** ** The name in the header *)

(** X28: the header after [updateUserInfo].  With a non-empty doctor name
    stored, as a login does, it shows that name and, as avatar, what the
    runtime's [toUpperCase] makes of the first character of the name; with
    none stored, as after a logout, it shows "Doctor" and leaves the avatar
    as it was.  An element the page does not have stays absent. *)
Theorem updateUserInfo_shows_name (toUpperCase : string → string)
                                  b (ui : Common.UserInfo) :
  (∀ c rest, getItem "doctorName" b = Some (String c rest) →
     Common.userName (Common.updateUserInfo toUpperCase b ui) =
       (λ _, String c rest) <$> Common.userName ui ∧
     Common.userAvatar (Common.updateUserInfo toUpperCase b ui) =
       (λ _, toUpperCase (String c "")) <$> Common.userAvatar ui) ∧
  (getItem "doctorName" b = None ∨ getItem "doctorName" b = Some "" →
     Common.userName (Common.updateUserInfo toUpperCase b ui) =
       (λ _, "Doctor") <$> Common.userName ui ∧
     Common.userAvatar (Common.updateUserInfo toUpperCase b ui) = Common.userAvatar ui) ∧
  Common.userName
    (Common.updateUserInfo toUpperCase (Common.handleLogout b) ui) =
    (λ _, "Doctor") <$> Common.userName ui.
Proof.
  unfold Common.updateUserInfo. split; [|split].
  - intros c rest ->. simpl. by destruct (Common.userAvatar ui).
  - intros [-> | ->]; simpl; by destruct (Common.userAvatar ui).
  - replace (getItem "doctorName" (Common.handleLogout b)) with (@None string).
    + reflexivity.
    + unfold Common.handleLogout, getItem. simpl.
      rewrite lookup_delete_ne by done. by rewrite lookup_delete_eq.
Qed.

Lemma updateUserInfo_shows_name_witness :
  let b := setItem "doctorName" "dr. Grey" Sample.page in
  Common.updateUserInfo Spec.ascii_upper b (Common.mkUserInfo (Some "") (Some "?"))
    = Common.mkUserInfo (Some "dr. Grey") (Some "D").
Proof.
  intros b.
  destruct (updateUserInfo_shows_name Spec.ascii_upper b
              (Common.mkUserInfo (Some "") (Some "?"))) as (Hname & _).
  destruct (Hname "d"%char "r. Grey" eq_refl) as (Hn & Ha).
  destruct (Common.updateUserInfo Spec.ascii_upper b
              (Common.mkUserInfo (Some "") (Some "?"))) as [n a].
  simpl in Hn, Ha. by rewrite Hn, Ha.
Defined.
